(** * SchoolReminders: the Skyward scraping client

    A shallow embedding of [SkywardPuppeteerClient] (the Puppeteer client of the
    Skyward portal): the turn queue, the browser session, the login decision of
    [testConnection], the in-page extraction of [extractGradesData] and the
    result assembly of [scrapeGrades].

    Conventions of the embedding.
    - A JavaScript string is a [string] whose characters are code units below
      256.  On those, [\s] and [trim] know the code units 9-13, 32 and 160, and
      case mapping only relates [A-Z] with [a-z] as far as the ASCII literals of
      the source can tell.
    - A pixel coordinate is a rational.  Layout coordinates are multiples of
      1/64 pixel, on which the double arithmetic of the source (one halving,
      one sum, one difference) is exact.
    - The DOM is the page as the queries of the source see it: the tables of
      [document.querySelectorAll('table')], the rows of each, the [th]/[td]
      cells of each row in document order.  Tables are not nested, and every
      [td] lies in a row of a table. *)

From Stdlib Require Import String Ascii List Bool Arith ZArith QArith Qabs Lia.
From Stdlib Require Import Sorting.Permutation Sorting.Sorted.
Import ListNotations.
Open Scope string_scope.

(** ** JavaScript strings *)

Module Js.

Definition code (c : ascii) : nat := nat_of_ascii c.

Definition between (lo hi : nat) (c : ascii) : bool :=
  (lo <=? code c)%nat && (code c <=? hi)%nat.

Definition isUpper : ascii -> bool := between 65 90.
Definition isLower : ascii -> bool := between 97 122.
Definition isDigit : ascii -> bool := between 48 57.

(** [\s] on code units below 256. *)
Definition isSpace (c : ascii) : bool :=
  between 9 13 c || (code c =? 32)%nat || (code c =? 160)%nat.

Definition lowerChar (c : ascii) : ascii :=
  if isUpper c then ascii_of_nat (code c + 32) else c.

Definition upperChar (c : ascii) : ascii :=
  if isLower c then ascii_of_nat (code c - 32) else c.

Fixpoint toLowerCase (s : string) : string :=
  match s with
  | EmptyString => EmptyString
  | String c s' => String (lowerChar c) (toLowerCase s')
  end.

Fixpoint toUpperCase (s : string) : string :=
  match s with
  | EmptyString => EmptyString
  | String c s' => String (upperChar c) (toUpperCase s')
  end.

(** [hay.includes(needle)]. *)
Fixpoint includes (hay needle : string) : bool :=
  prefix needle hay
  || match hay with
     | EmptyString => false
     | String _ hay' => includes hay' needle
     end.

Fixpoint trimStart (s : string) : string :=
  match s with
  | EmptyString => EmptyString
  | String c s' => if isSpace c then trimStart s' else s
  end.

Fixpoint trimEnd (s : string) : string :=
  match s with
  | EmptyString => EmptyString
  | String c s' =>
      match trimEnd s' with
      | EmptyString => if isSpace c then EmptyString else String c EmptyString
      | t => String c t
      end
  end.

Definition trim (s : string) : string := trimEnd (trimStart s).

(** [s.replace(/[\s]/g, '')]. *)
Fixpoint removeSpaces (s : string) : string :=
  match s with
  | EmptyString => EmptyString
  | String c s' => if isSpace c then removeSpaces s' else String c (removeSpaces s')
  end.

(** [s.replace(/\s+/g, ' ')]: every maximal run of white space becomes one
    space.  [inRun] tells that the previous character was white space. *)
Fixpoint collapseFrom (inRun : bool) (s : string) : string :=
  match s with
  | EmptyString => EmptyString
  | String c s' =>
      if isSpace c
      then (if inRun then collapseFrom true s' else String " " (collapseFrom true s'))
      else String c (collapseFrom false s')
  end.

Definition collapseSpaces : string -> string := collapseFrom false.

(** Truthiness of a [string | null] value. *)
Definition truthy (v : option string) : bool :=
  match v with
  | Some s => negb (s =? "")
  | None => false
  end.

End Js.

(** ** Regular expressions

    A backtracking matcher with the priorities of JavaScript: alternatives left
    to right, greedy repetition, the leftmost start wins.  One capture group is
    enough for the patterns of the client. *)

Module Re.

Inductive regex : Type :=
| Eps
| Chr (p : ascii -> bool)
| Seq (r1 r2 : regex)
| Alt (r1 r2 : regex)
| Star (r : regex)
| Grp (r : regex)
| Bol
| Eol.

Record mstate : Type := { pos : nat; rest : string; cap : option string }.

Fixpoint run {A : Type} (r : regex) (st : mstate) (k : mstate -> option A) : option A :=
  match r with
  | Eps => k st
  | Chr p =>
      match rest st with
      | String c s' =>
          if p c then k {| pos := S (pos st); rest := s'; cap := cap st |} else None
      | EmptyString => None
      end
  | Seq r1 r2 => run r1 st (fun st' => run r2 st' k)
  | Alt r1 r2 =>
      match run r1 st k with
      | Some x => Some x
      | None => run r2 st k
      end
  | Star r1 =>
      (fix loop (n : nat) (st0 : mstate) : option A :=
         match n with
         | O => k st0
         | S n' =>
             match run r1 st0 (fun st' => if (pos st0 <? pos st')%nat then loop n' st' else None) with
             | Some x => Some x
             | None => k st0
             end
         end) (S (String.length (rest st))) st
  | Grp r1 =>
      run r1 st (fun st' =>
        k {| pos := pos st'; rest := rest st';
             cap := Some (substring 0 (pos st' - pos st) (rest st)) |})
  | Bol => if (pos st =? 0)%nat then k st else None
  | Eol => match rest st with EmptyString => k st | String _ _ => None end
  end.

(** The result of [s.match(r)]: element 0 is the matched text, element 1 the
    capture group. *)
Record result : Type := { index : nat; whole : string; group1 : option string }.

Definition matchAt (r : regex) (p : nat) (s : string) : option result :=
  run r {| pos := p; rest := s; cap := None |}
      (fun st => Some {| index := p; whole := substring 0 (pos st - p) s; group1 := cap st |}).

Fixpoint searchFrom (r : regex) (p : nat) (s : string) : option result :=
  match matchAt r p s with
  | Some m => Some m
  | None =>
      match s with
      | EmptyString => None
      | String _ s' => searchFrom r (S p) s'
      end
  end.

Definition exec (r : regex) (s : string) : option result := searchFrom r 0 s.

Definition test (r : regex) (s : string) : bool :=
  match exec r s with Some _ => true | None => false end.

(** Building blocks. *)
Definition plus (r : regex) : regex := Seq r (Star r).
Definition opt (r : regex) : regex := Alt r Eps.
Definition chr (c : ascii) : regex := Chr (Ascii.eqb c).
(** A literal character under the [i] flag. *)
Definition chrI (c : ascii) : regex :=
  Chr (fun x => Ascii.eqb (Js.lowerChar x) (Js.lowerChar c)).

Fixpoint litI (s : string) : regex :=
  match s with
  | EmptyString => Eps
  | String c s' => Seq (chrI c) (litI s')
  end.

Definition seqs (rs : list regex) : regex := fold_right Seq Eps rs.

Definition upper : regex := Chr Js.isUpper.
Definition space : regex := Chr Js.isSpace.
Definition digit : regex := Chr Js.isDigit.
(** [[A-F]] and [[+-]]. *)
Definition gradeLetter : regex := Chr (Js.between 65 70).
Definition sign : regex := Chr (fun c => Ascii.eqb c "+" || Ascii.eqb c "-").

End Re.

(** The patterns of the client, in the order in which the source has them. *)

Module Pat.
Import Re.

(** [/[A-F][+-]?/]. *)
Definition grade : regex := Seq gradeLetter (opt sign).

(** [/([A-Z]+\s+[A-Z]\.?\s+[A-Z]+)/] *)
Definition studentName : regex :=
  Grp (seqs [plus upper; plus space; upper; opt (chr "."); plus space; plus upper]).

(** The school pattern, flag [i]: an opening parenthesis, then a group made
    of any characters but a closing parenthesis, [CANYON] or [HIGH], and again
    any characters but a closing parenthesis, then a closing parenthesis. *)
Definition school : regex :=
  let notParen := Chr (fun c => negb (Ascii.eqb c ")")) in
  seqs [chr "(";
        Grp (seqs [Star notParen; Alt (litI "CANYON") (litI "HIGH"); Star notParen]);
        chr ")"].

(** [/^(Q[1-4]|Grade|Period|Teacher|Total|Average)$/i] *)
Definition notACourse : regex :=
  seqs [Bol;
        Grp (Alt (Seq (chrI "Q") (Chr (Js.between 49 52)))
            (Alt (litI "Grade") (Alt (litI "Period") (Alt (litI "Teacher")
            (Alt (litI "Total") (litI "Average"))))));
        Eol].

(** [/([A-F][+-]?)/] *)
Definition gradeAnywhere : regex := Grp grade.

(** [/^[A-Z][A-Za-z\s\d]+$/] *)
Definition historyCourse : regex :=
  seqs [Bol; upper;
        plus (Chr (fun c => Js.isUpper c || Js.isLower c || Js.isSpace c || Js.isDigit c));
        Eol].

(** [/^([A-F][+-]?)$/] *)
Definition gradeExact : regex := seqs [Bol; Grp grade; Eol].

(** [/^[A-F][+-]?$/] *)
Definition gradeCell : regex := seqs [Bol; grade; Eol].

(** [/^[A-Z][A-Z\s\d]+$/] *)
Definition courseTitle : regex :=
  seqs [Bol; upper; plus (Chr (fun c => Js.isUpper c || Js.isSpace c || Js.isDigit c)); Eol].

(** [/Period\s*\d+/i] *)
Definition periodRow : regex := seqs [litI "Period"; Star space; plus digit].

(** [/^[A-Z][A-Z\s]+$/] *)
Definition teacherRow : regex :=
  seqs [Bol; upper; plus (Chr (fun c => Js.isUpper c || Js.isSpace c)); Eol].

End Pat.

(** ** The page as the extraction sees it *)

Inductive tagName : Type := TH | TD.

(** A table cell: its [textContent], the [left], [top] and [width] of its
    [getBoundingClientRect()], and its computed [backgroundColor]. *)
Record cell : Type := {
  tag : tagName;
  textContent : string;
  rectLeft : Q;
  rectTop : Q;
  rectWidth : Q;
  backgroundColor : string
}.

(** A [tr]: its [textContent] and the result of [querySelectorAll('th, td')]. *)
Record row : Type := { rowText : string; cells : list cell }.

(** A [table]: the result of [querySelectorAll('tr')] and the [top] of its
    [getBoundingClientRect()]. *)
Record table : Type := { rows : list row; tableTop : Q }.

(** The document: [document.body.innerText] and
    [document.querySelectorAll('table')]. *)
Record page : Type := { bodyText : string; tables : list table }.

Definition isTd (c : cell) : bool :=
  match tag c with TD => true | TH => false end.

(** [row.querySelectorAll('td')]. *)
Definition tdCells (r : row) : list cell := filter isTd (cells r).

(** [document.querySelectorAll('td')], in document order. *)
Definition allTd (p : page) : list cell :=
  flat_map (fun t => flat_map tdCells (rows t)) (tables p).

(** ** Results *)

Record QuarterGrade : Type := {
  quarter : string;
  letter : option string;
  isCurrent : bool
}.

Record MissingAssignment : Type := {
  ma_name : string;
  ma_course : string;
  ma_teacher : string;
  ma_dueDate : string
}.

Record SkywardCourse : Type := {
  name : string;
  period : string;
  teacher : string;
  grades : list QuarterGrade
}.

(** What [extractGradesData] returns. *)
Record GradesData : Type := {
  courses : list SkywardCourse;
  missingAssignments : list MissingAssignment;
  studentName : string;
  school : string
}.

(** A [Record<string, A>] that is only written to and read by key. *)
Definition dict (A : Type) : Type := list (string * A).

Fixpoint get {A : Type} (d : dict A) (k : string) : option A :=
  match d with
  | [] => None
  | (k', v) :: d' => if k' =? k then Some v else get d' k
  end.

Fixpoint set {A : Type} (d : dict A) (k : string) (v : A) : dict A :=
  match d with
  | [] => [(k, v)]
  | (k', v') :: d' => if k' =? k then (k, v) :: d' else (k', v') :: set d' k v
  end.

Definition quarters : list string := ["Q1"; "Q2"; "Q3"; "Q4"].

(** ** Strategy 1: a table with quarter headers *)

(** [headerText.includes('Q1') && headerText.includes('Q2')] on the first row
    of a table; [headerRow?.textContent || ''] is the empty string without
    rows. *)
Definition hasQuarterHeader (t : table) : bool :=
  let headerText := match rows t with r :: _ => rowText r | [] => "" end in
  Js.includes headerText "Q1" && Js.includes headerText "Q2".

(** One turn of the [headerCells.forEach] callback. *)
Definition headerStep (acc : dict nat * Z) (ic : nat * cell) : dict nat * Z :=
  let '(quarterColumns, courseColumn) := acc in
  let '(idx, c) := ic in
  let text := Js.trim (textContent c) in
  let quarterColumns :=
    fold_left (fun qc q => if Js.includes text q then set qc q idx else qc)
              quarters quarterColumns in
  let lower := Js.toLowerCase text in
  let courseColumn :=
    if Js.includes lower "course" || Js.includes lower "class"
    then Z.of_nat idx else courseColumn in
  (quarterColumns, courseColumn).

Definition indexed {A : Type} (l : list A) : list (nat * A) :=
  combine (seq 0 (length l)) l.

Definition headerColumns (headerCells : list cell) : dict nat * Z :=
  fold_left headerStep (indexed headerCells) ([], (-1)%Z).

(** The letter read in the column of quarter [q] of a body row. *)
Definition quarterLetter (quarterColumns : dict nat) (rowCells : list cell) (q : string)
  : option string :=
  match get quarterColumns q with
  | None => None
  | Some colIdx =>
      if (colIdx <? length rowCells)%nat then
        match nth_error rowCells colIdx with
        | None => None
        | Some c =>
            let cellText := Js.removeSpaces (Js.trim (textContent c)) in
            match Re.exec Pat.gradeAnywhere cellText with
            | Some m => Re.group1 m
            | None => None
            end
        end
      else None
  end.

(** The body of the loop over the rows [1 ..] of a quarter table; [None] is a
    [continue] or a row without any grade. *)
Definition strategy1Row (quarterColumns : dict nat) (courseColumn : Z) (r : row)
  : option SkywardCourse :=
  let rowCells := cells r in
  if (length rowCells <? 2)%nat then None else
  let courseIdx := if (courseColumn >=? 0)%Z then Z.to_nat courseColumn else O in
  let courseName :=
    match nth_error rowCells courseIdx with
    | Some c => Js.collapseSpaces (Js.trim (textContent c))
    | None => ""
    end in
  if (courseName =? "") || (String.length courseName <? 3)%nat
     || Re.test Pat.notACourse courseName
  then None else
  let grades :=
    map (fun q => {| quarter := q;
                     letter := quarterLetter quarterColumns rowCells q;
                     isCurrent := (q =? "Q3") |}) quarters in
  let hasGrades :=
    existsb (fun g => match letter g with Some _ => true | None => false end) grades in
  if hasGrades
  then Some {| name := courseName; period := ""; teacher := ""; grades := grades |}
  else None.

Definition keep {A : Type} (o : option A) : list A :=
  match o with Some x => [x] | None => [] end.

Definition strategy1Table (t : table) : list SkywardCourse :=
  if hasQuarterHeader t then
    match rows t with
    | [] => []
    | headerRow :: body =>
        let '(quarterColumns, courseColumn) := headerColumns (cells headerRow) in
        flat_map (fun r => keep (strategy1Row quarterColumns courseColumn r)) body
    end
  else [].

Definition strategy1 (p : page) : list SkywardCourse :=
  flat_map strategy1Table (tables p).

(** ** Strategy 2: academic history rows *)

(** The first cell after the first one whose trimmed text is a grade. *)
Definition firstGrade (rest : list cell) : option string :=
  match find (fun c => Re.test Pat.gradeExact (Js.trim (textContent c))) rest with
  | Some c =>
      match Re.exec Pat.gradeExact (Js.trim (textContent c)) with
      | Some m => Re.group1 m
      | None => None
      end
  | None => None
  end.

Definition strategy2Row (r : row) : option SkywardCourse :=
  match tdCells r with
  | first :: ((_ :: _) as rest) =>
      let firstCell := Js.trim (textContent first) in
      if Re.test Pat.historyCourse firstCell && (5 <? String.length firstCell)%nat then
        match firstGrade rest with
        | Some g =>
            Some {| name := firstCell; period := ""; teacher := "";
                    grades := [ {| quarter := "Q1"; letter := None; isCurrent := false |};
                                {| quarter := "Q2"; letter := None; isCurrent := false |};
                                {| quarter := "Q3"; letter := Some g; isCurrent := true |};
                                {| quarter := "Q4"; letter := None; isCurrent := false |} ] |}
        | None => None
        end
      else None
  | _ => None
  end.

Definition strategy2 (p : page) : list SkywardCourse :=
  flat_map (fun t => flat_map (fun r => keep (strategy2Row r)) (rows t)) (tables p).

(** ** Strategy 3: course blocks joined to grade cells by position *)

Definition Qltb (a b : Q) : bool := negb (Qle_bool b a).

(** [rect.left + rect.width / 2]. *)
Definition center (c : cell) : Q := rectLeft c + rectWidth c / 2.

(** One turn of the [cells.forEach] callback over the header cells. *)
Definition positionStep (quarterXPositions : dict Q) (c : cell) : dict Q :=
  let text := Js.trim (textContent c) in
  fold_left (fun qx q => if Js.includes text q then set qx q (center c) else qx)
            quarters quarterXPositions.

(** The positions come from the first table with a quarter header ([break]). *)
Definition quarterPositions (p : page) : dict Q :=
  match find hasQuarterHeader (tables p) with
  | Some t =>
      match rows t with
      | headerRow :: _ => fold_left positionStep (cells headerRow) []
      | [] => []
      end
  | None => []
  end.

Record gradeCell : Type := {
  text : string;
  element : cell;
  y : Q;
  x : Q;
  centerX : Q
}.

Definition isGradeCell (c : cell) : bool :=
  Re.test Pat.gradeCell (Js.removeSpaces (Js.trim (textContent c))).

Definition toGradeCell (c : cell) : gradeCell :=
  {| text := Js.toUpperCase (Js.removeSpaces (Js.trim (textContent c)));
     element := c;
     y := rectTop c;
     x := rectLeft c;
     centerX := center c |}.

Definition allGradeCells (p : page) : list gradeCell :=
  map toGradeCell (filter isGradeCell (allTd p)).

Record courseBlock : Type := {
  cb_name : string;
  cb_period : string;
  cb_teacher : string;
  cb_y : Q
}.

(** A table of exactly three rows: title, period, teacher. *)
Definition courseInfo (t : table) : option (string * string * string) :=
  match rows t with
  | [r0; r1; r2] =>
      let firstRowText := Js.trim (rowText r0) in
      let secondRowText := Js.trim (rowText r1) in
      let thirdRowText := Js.trim (rowText r2) in
      if Re.test Pat.courseTitle firstRowText
         && Re.test Pat.periodRow secondRowText
         && Re.test Pat.teacherRow thirdRowText
      then Some (firstRowText, secondRowText, thirdRowText)
      else None
  | _ => None
  end.

Definition toCourseBlock (t : table) : option courseBlock :=
  match courseInfo t with
  | Some (n, p, te) =>
      Some {| cb_name := n; cb_period := p; cb_teacher := te; cb_y := tableTop t |}
  | None => None
  end.

Definition courseData (p : page) : list courseBlock :=
  flat_map (fun t => keep (toCourseBlock t)) (tables p).

(** [Math.abs(cell.y - courseY) < 40] *)
Definition sameRow (courseY : Q) (c : gradeCell) : bool :=
  Qltb (Qabs (y c - courseY)) 40.

(** [Math.abs(cell.centerX - quarterX) < 30] *)
Definition aligned (quarterX : Q) (c : gradeCell) : bool :=
  Qltb (Qabs (centerX c - quarterX)) 30.

Definition rowCellsOf (courseY : Q) (cellsOnPage : list gradeCell) : list gradeCell :=
  filter (sameRow courseY) cellsOnPage.

(** The cell of the row that quarter [quarterX] takes: [rowCells.find(...)]. *)
Definition matchingCell (quarterX : Q) (rowCells : list gradeCell) : option gradeCell :=
  find (aligned quarterX) rowCells.

(** [bg.includes('255') && bg.includes('255') && !bg.includes('255, 255, 255')] *)
Definition highlighted (c : gradeCell) : bool :=
  let bg := backgroundColor (element c) in
  Js.includes bg "255" && Js.includes bg "255" && negb (Js.includes bg "255, 255, 255").

(** One turn of the loop over the quarters: the grade values and the current
    quarter so far. *)
Definition quarterStep (quarterXPositions : dict Q) (rowCells : list gradeCell)
    (acc : dict (option string) * option string) (q : string)
  : dict (option string) * option string :=
  let '(gradeValues, currentQuarter) := acc in
  match get quarterXPositions q with
  | None => acc
  | Some quarterX =>
      match matchingCell quarterX rowCells with
      | Some c =>
          (set gradeValues q (Some (text c)),
           if highlighted c then Some q else currentQuarter)
      | None => acc
      end
  end.

Definition noGrades : dict (option string) :=
  [("Q1", None); ("Q2", None); ("Q3", None); ("Q4", None)].

(** [rowCells.sort((a, b) => a.x - b.x)]: a stable sort by [x].  A cell is
    inserted among the cells that followed it, before the first one that is not
    to its left. *)
Fixpoint insertByX (c : gradeCell) (l : list gradeCell) : list gradeCell :=
  match l with
  | [] => [c]
  | d :: l' => if Qle_bool (x c) (x d) then c :: l else d :: insertByX c l'
  end.

Definition sortByX (l : list gradeCell) : list gradeCell :=
  fold_right insertByX [] l.

(** [l.slice(-4)] *)
Definition lastFour {A : Type} (l : list A) : list A := skipn (length l - 4) l.

(** Without any quarter position the four rightmost cells of the row are
    taken from left to right. *)
Definition rightmostFallback (rowCells : list gradeCell) (gradeValues : dict (option string))
  : dict (option string) :=
  let sortedCells := lastFour (sortByX rowCells) in
  fold_left (fun gv iq =>
               match nth_error sortedCells (fst iq) with
               | Some c => set gv (snd iq) (Some (text c))
               | None => gv
               end)
            (indexed quarters) gradeValues.

Definition valueOf (gradeValues : dict (option string)) (q : string) : option string :=
  match get gradeValues q with Some v => v | None => None end.

Definition isQuarter (currentQuarter : option string) (q : string) : bool :=
  match currentQuarter with Some c => c =? q | None => false end.

Definition isNull (currentQuarter : option string) : bool :=
  match currentQuarter with Some _ => false | None => true end.

(** The four grades of one course block. *)
Definition blockGrades (quarterXPositions : dict Q) (rowCells : list gradeCell)
  : list QuarterGrade :=
  let '(gradeValues, currentQuarter) :=
    fold_left (quarterStep quarterXPositions rowCells) quarters (noGrades, None) in
  let gradeValues :=
    match quarterXPositions with
    | [] => rightmostFallback rowCells gradeValues
    | _ :: _ => gradeValues
    end in
  [ {| quarter := "Q1"; letter := valueOf gradeValues "Q1";
       isCurrent := isQuarter currentQuarter "Q1" |};
    {| quarter := "Q2"; letter := valueOf gradeValues "Q2";
       isCurrent := isQuarter currentQuarter "Q2" |};
    {| quarter := "Q3"; letter := valueOf gradeValues "Q3";
       isCurrent := isQuarter currentQuarter "Q3" || isNull currentQuarter |};
    {| quarter := "Q4"; letter := valueOf gradeValues "Q4";
       isCurrent := isQuarter currentQuarter "Q4" |} ].

(** *** Merging course blocks of one name *)

(** Entry [i] of the existing record after the two [if]s of the merge loop. *)
Definition mergeSlot (existing new : QuarterGrade) : QuarterGrade :=
  {| quarter := quarter existing;
     letter := if Js.truthy (letter new) && negb (Js.truthy (letter existing))
               then letter new else letter existing;
     isCurrent := if isCurrent new then true else isCurrent existing |}.

Fixpoint setNth {A : Type} (i : nat) (v : A) (l : list A) : list A :=
  match l, i with
  | [], _ => []
  | _ :: l', O => v :: l'
  | a :: l', S i' => a :: setNth i' v l'
  end.

(** One turn of [for (let i = 0; i < 4; i++)].  Both arrays have four entries
    when the loop runs (see [strategy3_shape]); the last case is not reached. *)
Definition mergeStep (new : list QuarterGrade) (existing : list QuarterGrade) (i : nat)
  : list QuarterGrade :=
  match nth_error new i, nth_error existing i with
  | Some g, Some e => setNth i (mergeSlot e g) existing
  | _, _ => existing
  end.

Definition mergeGrades (existing new : list QuarterGrade) : list QuarterGrade :=
  fold_left (mergeStep new) [0; 1; 2; 3]%nat existing.

Definition mergeInto (existingCourse : SkywardCourse) (new : list QuarterGrade)
  : SkywardCourse :=
  {| name := name existingCourse;
     period := period existingCourse;
     teacher := teacher existingCourse;
     grades := mergeGrades (grades existingCourse) new |}.

(** The update of the first record of that name, which is the one that
    [results.courses.find(c => c.name === course.name)] returns. *)
Fixpoint mergeFirst (n : string) (new : list QuarterGrade) (cs : list SkywardCourse)
  : list SkywardCourse :=
  match cs with
  | [] => []
  | c :: cs' => if name c =? n then mergeInto c new :: cs' else c :: mergeFirst n new cs'
  end.

(** The end of the loop body: merge into the record of that name, or push. *)
Definition addCourse (cs : list SkywardCourse) (course : courseBlock)
    (new : list QuarterGrade) : list SkywardCourse :=
  match find (fun c => name c =? cb_name course) cs with
  | Some _ => mergeFirst (cb_name course) new cs
  | None =>
      cs ++ [ {| name := cb_name course; period := cb_period course;
                 teacher := cb_teacher course; grades := new |} ]
  end.

Definition strategy3Step (quarterXPositions : dict Q) (cellsOnPage : list gradeCell)
    (cs : list SkywardCourse) (course : courseBlock) : list SkywardCourse :=
  addCourse cs course (blockGrades quarterXPositions (rowCellsOf (cb_y course) cellsOnPage)).

Definition strategy3 (p : page) : list SkywardCourse :=
  fold_left (strategy3Step (quarterPositions p) (allGradeCells p)) (courseData p) [].

(** ** The extraction *)

Definition findStudentName (body : string) : string :=
  match Re.exec Pat.studentName body with
  | Some m => Re.whole m
  | None => ""
  end.

Definition findSchool (body : string) : string :=
  match Re.exec Pat.school body with
  | Some m => match Re.group1 m with Some s => s | None => "" end
  | None => ""
  end.

(** The function evaluated in the page: the first strategy that finds a
    course decides. *)
Definition extractInPage (p : page) : GradesData :=
  let found (cs : list SkywardCourse) :=
    {| courses := cs; missingAssignments := [];
       studentName := findStudentName (bodyText p);
       school := findSchool (bodyText p) |} in
  match strategy1 p with
  | (_ :: _) as cs => found cs
  | [] =>
      match strategy2 p with
      | (_ :: _) as cs => found cs
      | [] => found (strategy3 p)
      end
  end.

Definition emptyData : GradesData :=
  {| courses := []; missingAssignments := []; studentName := ""; school := "" |}.

(** ** The course-only scan at the end of [scrapeGrades] *)

Definition fallbackCourse (t : table) : option SkywardCourse :=
  match courseInfo t with
  | Some (n, p, te) =>
      Some {| name := n; period := p; teacher := te;
              grades := [ {| quarter := "Q1"; letter := None; isCurrent := false |};
                          {| quarter := "Q2"; letter := None; isCurrent := false |};
                          {| quarter := "Q3"; letter := None; isCurrent := true |};
                          {| quarter := "Q4"; letter := None; isCurrent := false |} ] |}
  | None => None
  end.

Definition fallbackScan (p : page) : list SkywardCourse :=
  flat_map (fun t => keep (fallbackCourse t)) (tables p).

(** ** The browser session *)

(** [browser] is the field [this.browser], naming a browser process; [alive]
    are the processes that still run, [launched] counts the calls of
    [puppeteer.launch] that succeeded. *)
Record session : Type := {
  browser : option nat;
  alive : list nat;
  launched : nat
}.

Definition newSession : session := {| browser := None; alive := []; launched := 0 |}.

Definition isAlive (s : session) (b : nat) : bool := existsb (Nat.eqb b) (alive s).

(** What the portal and the system do during one call. *)
Record portal : Type := {
  (** [puppeteer.launch] rejects with this message *)
  launchError : option string;
  (** an exception before the login form is looked up ([newPage], [goto]) *)
  loginError : option string;
  (** both login fields were found *)
  loginFormFound : bool;
  (** an exception between the login and the extraction *)
  navigationError : option string;
  (** the document of the page when the extraction is evaluated;
      [None] when the evaluation fails *)
  documentAtExtraction : option page;
  (** the document the page holds when the course-only scan is issued *)
  documentAtFallback : option page
}.

(** [puppeteer.launch]. *)
Definition launch (env : portal) (s : session) : session * option string :=
  match launchError env with
  | Some msg => ({| browser := None; alive := alive s; launched := launched s |}, Some msg)
  | None =>
      ({| browser := Some (launched s);
          alive := launched s :: alive s;
          launched := S (launched s) |}, None)
  end.

(** [init]: a browser that answers [version()] is kept. *)
Definition init (env : portal) (s : session) : session * option string :=
  match browser s with
  | Some b => if isAlive s b then (s, None) else launch env s
  | None => launch env s
  end.

(** [ensureBrowser]: the browser, or the thrown message. *)
Definition ensureBrowser (env : portal) (s : session) : session * (nat + string) :=
  match init env s with
  | (s', Some msg) => (s', inr msg)
  | (s', None) =>
      match browser s' with
      | Some b => (s', inl b)
      | None => (s', inr "Failed to initialize browser")
      end
  end.

(** [await this.browser?.close(); this.browser = null] and [close()]. *)
Definition closeBrowser (s : session) : session :=
  match browser s with
  | Some b =>
      {| browser := None;
         alive := filter (fun b' => negb (Nat.eqb b' b)) (alive s);
         launched := launched s |}
  | None => s
  end.

(** [page.evaluate(f)] on a page of browser [owner]: it rejects ([None]) when
    that browser process is gone or the page has no usable document. *)
Definition evaluate {A : Type} (s : session) (owner : nat) (document : option page)
    (f : page -> A) : option A :=
  if isAlive s owner then option_map f document else None.

(** [extractGradesData(page)]: the [catch] turns a failed evaluation into the
    empty result, so the call always returns. *)
Definition extractGradesData (s : session) (owner : nat) (document : option page)
  : GradesData :=
  match evaluate s owner document extractInPage with
  | Some d => d
  | None => emptyData
  end.

Record ScrapeResult : Type := {
  success : bool;
  resultCourses : option (list SkywardCourse);
  resultMissingAssignments : option (list MissingAssignment);
  resultStudentName : option string;
  resultSchool : option string;
  error : option string
}.

Definition failure (msg : string) : ScrapeResult :=
  {| success := false; resultCourses := None; resultMissingAssignments := None;
     resultStudentName := None; resultSchool := None; error := Some msg |}.

Definition found (cs : list SkywardCourse) (d : GradesData) : ScrapeResult :=
  {| success := true; resultCourses := Some cs;
     resultMissingAssignments := Some (missingAssignments d);
     resultStudentName := Some (studentName d);
     resultSchool := Some (school d); error := None |}.

Definition noGradesFound : string :=
  "No grades found. Skyward may be blocking automated access. Try accessing Skyward directly.".

(** The [catch] block of [scrapeGrades]. *)
Definition scrapeFailed (s : session) (message : string) : session * ScrapeResult :=
  (closeBrowser s, failure ("Failed to scrape grades: " ++ message)).

(** [scrapeGrades] between [waitForTurn] and [releaseTurn]. *)
Definition scrapeGrades (env : portal) (s : session) : session * ScrapeResult :=
  match ensureBrowser env s with
  | (s1, inr msg) => scrapeFailed s1 msg
  | (s1, inl b) =>
      match loginError env with
      | Some msg => scrapeFailed s1 msg
      | None =>
          if negb (loginFormFound env) then (s1, failure "Could not find login form")
          else
            match navigationError env with
            | Some msg => scrapeFailed s1 msg
            | None =>
                let gradesData := extractGradesData s1 b (documentAtExtraction env) in
                let s2 := closeBrowser s1 in
                match courses gradesData with
                | [] =>
                    let fallbackData :=
                      match evaluate s2 b (documentAtFallback env) fallbackScan with
                      | Some cs => cs
                      | None => []
                      end in
                    match fallbackData with
                    | _ :: _ => (s2, found fallbackData gradesData)
                    | [] => (s2, failure noGradesFound)
                    end
                | _ :: _ => (s2, found (courses gradesData) gradesData)
                end
            end
      end
  end.

(** ** The login decision of [testConnection] *)

Record postLogin : Type := {
  (** [allPages.length] *)
  pageCount : nat;
  (** [!!document.querySelector('input[name="login"]')] *)
  loginFormPresent : bool;
  (** [document.body.innerText] *)
  innerText : string;
  (** [page.content()] *)
  content : string;
  (** the [textContent] of the first element of the error selector *)
  errorElement : option string;
  (** [page.url()] *)
  finalUrl : string
}.

Inductive branch : Type :=
| LoggedIn | FormStillVisible | ErrorText | UrlChanged | GradeContent | Ambiguous.

Record connection : Type := {
  connected : bool;
  message : option string;
  connectionError : option string
}.

Definition connectedOk : connection :=
  {| connected := true; message := Some "Connected successfully!"; connectionError := None |}.

Definition refused (msg : string) : connection :=
  {| connected := false; message := None; connectionError := Some msg |}.

Definition hasLoggedInContent (st : postLogin) : bool :=
  let bodyText := Js.toLowerCase (innerText st) in
  Js.includes bodyText "gradebook" || Js.includes bodyText "my students"
  || Js.includes bodyText "attendance" || Js.includes bodyText "message center"
  || Js.includes bodyText "log out" || Js.includes bodyText "logout".

Definition hasErrorWords (st : postLogin) : bool :=
  let lowerContent := Js.toLowerCase (content st) in
  Js.includes lowerContent "invalid" || Js.includes lowerContent "incorrect"
  || Js.includes lowerContent "failed" || Js.includes lowerContent "error".

(** [errorEl?.textContent?.trim() || null] *)
Definition errorText (st : postLogin) : option string :=
  match errorElement st with
  | Some t => if Js.trim t =? "" then None else Some (Js.trim t)
  | None => None
  end.

Definition hasGradeContent (st : postLogin) : bool :=
  let body := Js.toLowerCase (innerText st) in
  Js.includes body "gradebook" || Js.includes body "my classes" || Js.includes body "welcome".

(** The chain of [if]s after the login, with the branch that returned. *)
Definition decideLogin (st : postLogin) : branch * connection :=
  if (1 <? pageCount st)%nat || hasLoggedInContent st || negb (loginFormPresent st)
  then (LoggedIn, connectedOk)
  else if loginFormPresent st && negb (hasLoggedInContent st)
  then (FormStillVisible,
        refused "Login failed. Please double-check your username and password.")
  else if hasErrorWords st
  then (ErrorText,
        refused (match errorText st with
                 | Some t => t
                 | None => "Login failed. Please check your credentials."
                 end))
  else if negb (Js.includes (finalUrl st) "seplog") && negb (Js.includes (finalUrl st) "login")
  then (UrlChanged, connectedOk)
  else if hasGradeContent st
  then (GradeContent, connectedOk)
  else (Ambiguous, refused "Login may have failed. Please verify your credentials.").

(** ** The turn queue *)

Module Turn.

Record queue : Type := {
  isOperationInProgress : bool;
  (** the callers whose resolver waits in [operationQueue] *)
  operationQueue : list nat
}.

(** [waitForTurn] called by [caller]: the new queue, and whether the promise
    is resolved at once. *)
Definition waitForTurn (caller : nat) (q : queue) : queue * bool :=
  if negb (isOperationInProgress q)
  then ({| isOperationInProgress := true; operationQueue := operationQueue q |}, true)
  else ({| isOperationInProgress := isOperationInProgress q;
           operationQueue := operationQueue q ++ [caller] |}, false).

(** [releaseTurn]: the new queue, and the caller whose promise [next()]
    resolved. *)
Definition releaseTurn (q : queue) : queue * option nat :=
  match operationQueue q with
  | next :: rest => ({| isOperationInProgress := true; operationQueue := rest |}, Some next)
  | [] => ({| isOperationInProgress := false; operationQueue := [] |}, None)
  end.

(** The scrape operations around the queue.  [holding] are the operations
    whose [waitForTurn] has resolved and whose [finally] has not run yet;
    [arrived] and [finished] record the order of the calls and of the
    releases. *)
Record system : Type := {
  turn : queue;
  holding : list nat;
  arrived : list nat;
  finished : list nat
}.

Definition start : system :=
  {| turn := {| isOperationInProgress := false; operationQueue := [] |};
     holding := []; arrived := []; finished := [] |}.

Inductive event : Type :=
| Begin (op : nat)      (* the operation is called and calls [waitForTurn] *)
| Interact (op : nat)   (* a navigation, click or read on the browser *)
| Finish (op : nat).    (* the [finally] block: [releaseTurn] *)

Definition member (i : nat) (l : list nat) : bool := existsb (Nat.eqb i) l.

(** An operation interacts with the browser only between the resolution of
    its [waitForTurn] and its [finally]; [None] is an event that the program
    order of the operations excludes. *)
Definition step (s : system) (e : event) : option system :=
  match e with
  | Begin i =>
      if member i (arrived s) then None else
      let '(q, now) := waitForTurn i (turn s) in
      Some {| turn := q;
              holding := if now then holding s ++ [i] else holding s;
              arrived := arrived s ++ [i];
              finished := finished s |}
  | Interact i => if member i (holding s) then Some s else None
  | Finish i =>
      if member i (holding s) then
        let '(q, resumed) := releaseTurn (turn s) in
        Some {| turn := q;
                holding := filter (fun j => negb (Nat.eqb j i)) (holding s) ++ keep resumed;
                arrived := arrived s;
                finished := finished s ++ [i] |}
      else None
  end.

Fixpoint exec (s : system) (tr : list event) : option system :=
  match tr with
  | [] => Some s
  | e :: tr' =>
      match step s e with
      | Some s' => exec s' tr'
      | None => None
      end
  end.

(** The calls and the releases of a trace, in order. *)
Definition begins (tr : list event) : list nat :=
  flat_map (fun e => match e with Begin i => [i] | _ => [] end) tr.

Definition finishes (tr : list event) : list nat :=
  flat_map (fun e => match e with Finish i => [i] | _ => [] end) tr.

(** What holds in every state that the operations can reach. *)
Record invariant (s : system) : Prop := {
  inv_nodup : NoDup (arrived s);
  inv_order : arrived s = (finished s ++ holding s ++ operationQueue (turn s))%list;
  inv_single : (length (holding s) <= 1)%nat;
  inv_flag : isOperationInProgress (turn s) = false ->
             holding s = [] /\ operationQueue (turn s) = [];
  inv_busy : isOperationInProgress (turn s) = true -> holding s <> []
}.

End Turn.

(** ** The details of one course *)

Record Assignment : Type := {
  as_name : string;
  as_category : string;
  as_score : option Q;
  as_pointsPossible : option Q;
  as_missing : bool;
  as_late : bool;
  as_dueDate : option string
}.

Record Category : Type := {
  cat_name : string;
  cat_weight : Q;
  cat_earnedPoints : Q;
  cat_possiblePoints : Q;
  cat_currentScore : option Q
}.

Record CourseDetails : Type := {
  courseName : string;
  detailsTeacher : string;
  detailsPeriod : string;
  currentGrade : option string;
  currentScore : option Q;
  assignments : list Assignment;
  categories : list Category
}.

(** The value returned when nothing is found, and by the [catch]. *)
Definition noDetails (courseName : string) : CourseDetails :=
  {| courseName := courseName; detailsTeacher := ""; detailsPeriod := "";
     currentGrade := None; currentScore := None; assignments := []; categories := [] |}.

(** The test of the first loop of [extractCourseDetailsFromGradebook] on a
    table of three rows: the title contains the first ten characters of the
    target, or the target contains the first ten characters of the title, both
    in lower case.  The result is the title, the period and the teacher. *)
Definition targetBlock (targetCourse : string) (t : table)
  : option (string * string * string) :=
  match rows t with
  | [r0; r1; r2] =>
      let firstRowText := Js.trim (rowText r0) in
      if Js.includes (Js.toLowerCase firstRowText)
                     (substring 0 10 (Js.toLowerCase targetCourse))
         || Js.includes (Js.toLowerCase targetCourse)
                        (substring 0 10 (Js.toLowerCase firstRowText))
      then Some (firstRowText, Js.trim (rowText r1), Js.trim (rowText r2))
      else None
  | _ => None
  end.

(** The first table that passes the test ([break]). *)
Fixpoint firstTargetBlock (targetCourse : string) (ts : list table)
  : option (string * string * string) :=
  match ts with
  | [] => None
  | t :: ts' =>
      match targetBlock targetCourse t with
      | Some b => Some b
      | None => firstTargetBlock targetCourse ts'
      end
  end.

(** [document.querySelectorAll('td')] with [cell.closest('tr')]. *)
Definition allTdInRow (p : page) : list (row * cell) :=
  flat_map (fun t => flat_map (fun r => map (pair r) (tdCells r)) (rows t)) (tables p).

(** The test of the second loop: a cell whose trimmed text is a grade, in a
    row whose text contains the first eight characters of the target. *)
Definition isTargetGrade (targetCourse : string) (rc : row * cell) : bool :=
  Re.test Pat.gradeCell (Js.trim (textContent (snd rc)))
  && Js.includes (Js.toLowerCase (rowText (fst rc)))
                 (substring 0 8 (Js.toLowerCase targetCourse)).

Definition cellHighlighted (c : cell) : bool :=
  let bg := backgroundColor c in
  Js.includes bg "255" && Js.includes bg "255" && negb (Js.includes bg "255, 255, 255").

(** The second loop, from the cells that remain and [result.currentGrade]. *)
Fixpoint currentGradeLoop (targetCourse : string) (cs : list (row * cell))
    (current : option string) : option string :=
  match cs with
  | [] => current
  | rc :: cs' =>
      if isTargetGrade targetCourse rc then
        let text := Js.trim (textContent (snd rc)) in
        if cellHighlighted (snd rc) then Some text
        else currentGradeLoop targetCourse cs'
               (if negb (Js.truthy current) then Some text else current)
      else currentGradeLoop targetCourse cs' current
  end.

(** The function that [extractCourseDetailsFromGradebook] evaluates in the
    page. *)
Definition detailsInPage (targetCourse : string) (p : page) : CourseDetails :=
  let grade := currentGradeLoop targetCourse (allTdInRow p) None in
  match firstTargetBlock targetCourse (tables p) with
  | Some (title, periodText, teacherText) =>
      {| courseName := title; detailsTeacher := teacherText; detailsPeriod := periodText;
         currentGrade := grade; currentScore := None;
         assignments := []; categories := [] |}
  | None =>
      {| courseName := targetCourse; detailsTeacher := ""; detailsPeriod := "";
         currentGrade := grade; currentScore := None;
         assignments := []; categories := [] |}
  end.

Definition extractCourseDetailsFromGradebook (s : session) (owner : nat)
    (document : option page) (courseName : string) : CourseDetails :=
  match evaluate s owner document (detailsInPage courseName) with
  | Some d => d
  | None => noDetails courseName
  end.

Record CourseDetailsResult : Type := {
  detailsSuccess : bool;
  courseDetails : option CourseDetails;
  detailsError : option string
}.

Definition detailsFailure (msg : string) : CourseDetailsResult :=
  {| detailsSuccess := false; courseDetails := None; detailsError := Some msg |}.

(** The [catch] block of [scrapeCourseDetails]. *)
Definition detailsFailed (s : session) (message : string) : session * CourseDetailsResult :=
  (closeBrowser s, detailsFailure ("Failed to scrape course details: " ++ message)).

Section CourseDetailsCall.

(** [decodeURIComponent]: the decoded name, or the message of the
    [URIError]. *)
Variable decodeURIComponent : string -> string + string.

(** [scrapeCourseDetails] between [waitForTurn] and [releaseTurn]. *)
Definition scrapeCourseDetails (env : portal) (s : session) (courseName : string)
  : session * CourseDetailsResult :=
  match ensureBrowser env s with
  | (s1, inr msg) => detailsFailed s1 msg
  | (s1, inl b) =>
      match loginError env with
      | Some msg => detailsFailed s1 msg
      | None =>
          if negb (loginFormFound env) then (s1, detailsFailure "Could not find login form")
          else
            match navigationError env with
            | Some msg => detailsFailed s1 msg
            | None =>
                match decodeURIComponent courseName with
                | inr msg => detailsFailed s1 msg
                | inl decodedCourseName =>
                    let details :=
                      extractCourseDetailsFromGradebook s1 b (documentAtExtraction env)
                        decodedCourseName in
                    (closeBrowser s1,
                     {| detailsSuccess := true; courseDetails := Some details;
                        detailsError := None |})
                end
            end
      end
  end.

End CourseDetailsCall.

(** ** The routes that call the client *)

Inductive responseBody : Type :=
| GradesBody (courses : list SkywardCourse) (missing : list MissingAssignment)
             (studentName school : string) (courseCount : nat)
| ErrorBody (error : string).

Record response : Type := { status : nat; body : responseBody }.

(** [!value] for a field of the request that is a string or absent. *)
Definition missingField (v : option string) : bool := negb (Js.truthy v).

(** The answer of both grade routes to the result of [scrapeGrades]. *)
Definition gradesResponse (result : ScrapeResult) : response :=
  if success result then
    {| status := 200;
       body := GradesBody
                 (match resultCourses result with Some cs => cs | None => [] end)
                 (match resultMissingAssignments result with Some ms => ms | None => [] end)
                 (match resultStudentName result with Some n => n | None => "" end)
                 (match resultSchool result with Some n => n | None => "" end)
                 (match resultCourses result with Some cs => length cs | None => 0 end) |}
  else
    {| status := 500;
       body := ErrorBody (if Js.truthy (error result)
                          then match error result with Some e => e | None => "" end
                          else "Failed to fetch grades from Skyward") |}.

(** [POST] of the grades route that takes the credentials from the request;
    [request] is [None] when [request.json()] fails. *)
Definition postGrades (env : portal) (s : session)
    (request : option (option string * option string)) : session * response :=
  match request with
  | None => (s, {| status := 500; body := ErrorBody "Failed to fetch grades from Skyward" |})
  | Some (username, password) =>
      if missingField username || missingField password
      then (s, {| status := 400; body := ErrorBody "Username and password are required" |})
      else
        let '(s', result) := scrapeGrades env s in
        (s', gradesResponse result)
  end.

(** [POST] of the grades route that takes the stored credentials; [stored] is
    what [getSkywardCredentials] returns, [None] when it throws, which the
    [catch] of the route answers. *)
Definition postStoredGrades (env : portal) (s : session)
    (stored : option (option (string * string))) : session * response :=
  match stored with
  | None => (s, {| status := 500; body := ErrorBody "Failed to fetch grades from Skyward" |})
  | Some None =>
      (s, {| status := 401;
             body := ErrorBody "Skyward not connected. Please connect Skyward in settings." |})
  | Some (Some _) =>
      let '(s', result) := scrapeGrades env s in
      (s', gradesResponse result)
  end.

(** ** Sequences of calls on the one client *)

Inductive call : Type :=
| CallInit (env : portal)
| CallClose
| CallScrapeGrades (env : portal)
| CallScrapeCourseDetails (decodeURIComponent : string -> string + string)
                          (env : portal) (courseName : string)
| CallPostGrades (env : portal) (request : option (option string * option string))
| CallPostStoredGrades (env : portal) (stored : option (option (string * string))).

Definition perform (s : session) (c : call) : session :=
  match c with
  | CallInit env => fst (init env s)
  | CallClose => closeBrowser s
  | CallScrapeGrades env => fst (scrapeGrades env s)
  | CallScrapeCourseDetails decodeURIComponent env courseName =>
      fst (scrapeCourseDetails decodeURIComponent env s courseName)
  | CallPostGrades env request => fst (postGrades env s request)
  | CallPostStoredGrades env stored => fst (postStoredGrades env s stored)
  end.

Definition performAll (s : session) (cs : list call) : session := fold_left perform cs s.

(** ** Fixtures *)

Module Fixture.

Definition th (s : string) (l t w : Q) : cell :=
  {| tag := TH; textContent := s; rectLeft := l; rectTop := t; rectWidth := w;
     backgroundColor := "rgba(0, 0, 0, 0)" |}.

Definition td (s : string) (l t w : Q) : cell :=
  {| tag := TD; textContent := s; rectLeft := l; rectTop := t; rectWidth := w;
     backgroundColor := "rgba(0, 0, 0, 0)" |}.

Definition lit (c : cell) (bg : string) : cell :=
  {| tag := tag c; textContent := textContent c; rectLeft := rectLeft c;
     rectTop := rectTop c; rectWidth := rectWidth c; backgroundColor := bg |}.

(** A row without text nodes of its own: its text is that of its cells. *)
Definition tr (cs : list cell) : row :=
  {| rowText := fold_right (fun c s => textContent c ++ s) "" cs; cells := cs |}.

Definition yellow : string := "rgb(255, 255, 0)".

(** One table with the header Course, Q1 .. Q4 and two course rows; the Q3
    cell of ALGEBRA II is highlighted. *)
Definition labelled : page :=
  {| bodyText := "Gradebook";
     tables :=
       [ {| tableTop := 100;
            rows :=
              [ tr [th "Course" 0 100 200; th "Q1" 200 100 50; th "Q2" 250 100 50;
                    th "Q3" 300 100 50; th "Q4" 350 100 50];
                tr [td "BIOLOGY" 0 120 200; td "A" 200 120 50; td "B" 250 120 50;
                    td "" 300 120 50; td "" 350 120 50];
                tr [td "ALGEBRA II" 0 140 200; td "" 200 140 50; td "" 250 140 50;
                    lit (td "B+" 300 140 50) yellow; td "" 350 140 50] ] |} ] |}.

(** A page without any table, after the grades view failed to load. *)
Definition noTables : page :=
  {| bodyText := "JANE Q DOE (ALTA HIGH SCHOOL) Loading..."; tables := [] |}.

(** A page whose only table is a menu. *)
Definition menuOnly : page :=
  {| bodyText := "Loading...";
     tables := [ {| tableTop := 0; rows := [ tr [td "Home" 0 0 80; td "Calendar" 80 0 80] ] |} ] |}.

(** A session whose browser process 0 runs. *)
Definition live : session := {| browser := Some 0%nat; alive := [0%nat]; launched := 1 |}.

Definition course (n : string) (g1 g2 g3 g4 : option string) (c1 c2 c3 c4 : bool)
  : SkywardCourse :=
  {| name := n; period := ""; teacher := "";
     grades := [ {| quarter := "Q1"; letter := g1; isCurrent := c1 |};
                 {| quarter := "Q2"; letter := g2; isCurrent := c2 |};
                 {| quarter := "Q3"; letter := g3; isCurrent := c3 |};
                 {| quarter := "Q4"; letter := g4; isCurrent := c4 |} ] |}.

Definition biology : SkywardCourse :=
  course "BIOLOGY" (Some "A") (Some "B") None None false false true false.

Definition algebra : SkywardCourse :=
  course "ALGEBRA II" None None (Some "B+") None false false true false.

(** The header table of the quarters, centred at 320, 360, 400 and 440. *)
Definition quarterHeader : table :=
  {| tableTop := 50;
     rows := [ tr [th "Q1" 300 50 40; th "Q2" 340 50 40; th "Q3" 380 50 40;
                   th "Q4" 420 50 40] ] |}.

Definition block (n p te : string) (top : Q) : table :=
  {| tableTop := top; rows := [ tr [td n 0 top 200]; tr [td p 0 (top + 15) 200];
                                tr [td te 0 (top + 30) 200] ] |}.

Definition gradeRow (top : Q) (cs : list cell) : table :=
  {| tableTop := top; rows := [ tr cs ] |}.

(** ALGEBRA II in two periods: an A in Q1 without highlight in the first
    block, a highlighted B in Q2 in the second. *)
Definition twoPeriods : page :=
  {| bodyText := "Gradebook";
     tables :=
       [ quarterHeader;
         block "ALGEBRA II" "Period 1" "SMITH JOHN" 100;
         gradeRow 100 [td "A" 300 100 40; td "" 340 100 40; td "" 380 100 40;
                       td "" 420 100 40];
         block "ALGEBRA II" "Period 5" "SMITH JOHN" 200;
         gradeRow 200 [td "" 300 200 40; lit (td "B" 340 200 40) yellow;
                       td "" 380 200 40; td "" 420 200 40] ] |}.

(** One course block whose row has two grade cells, centred at 310 and 330,
    near the Q1 header, centred at 320. *)
Definition crowdedRow : page :=
  {| bodyText := "Gradebook";
     tables :=
       [ quarterHeader;
         block "ALGEBRA II" "Period 1" "SMITH JOHN" 100;
         gradeRow 100 [td "A" 300 100 20; td "B" 320 100 20; td "" 380 100 40;
                       td "" 420 100 40] ] |}.

(** The page of one course block without any grade. *)
Definition blockOnly : page :=
  {| bodyText := "Gradebook";
     tables := [ block "ALGEBRA II" "Period 1" "SMITH JOHN" 100 ] |}.

(** A call in which everything works and the labelled table is shown. *)
Definition gradesShown : portal :=
  {| launchError := None; loginError := None; loginFormFound := true;
     navigationError := None;
     documentAtExtraction := Some labelled;
     documentAtFallback := Some labelled |}.

(** A call in which the extraction sees a page that is still loading, and
    the page holds a course block by the time of the course-only scan. *)
Definition lateBlocks : portal :=
  {| launchError := None; loginError := None; loginFormFound := true;
     navigationError := None;
     documentAtExtraction := Some noTables;
     documentAtFallback := Some blockOnly |}.

(** After a rejected login the portal shows an error page: one window, no
    login form any more, no marker of a session, an error element. *)
Definition rejected : postLogin :=
  {| pageCount := 1;
     loginFormPresent := false;
     innerText := "Invalid login or password.";
     content := "<html><body><div class=error>Invalid login or password.</div></body></html>";
     errorElement := Some "Invalid login or password.";
     finalUrl := "https://student.canyonsdistrict.org/scripts/wsisa.dll/WService=wsEAplus/skyporthttp.w" |}.

(** A call in which the browser cannot be launched. *)
Definition launchFails : portal :=
  {| launchError := Some "Failed to launch the browser process!";
     loginError := None; loginFormFound := true; navigationError := None;
     documentAtExtraction := None; documentAtFallback := None |}.

(** A call in which everything works and the page shows only a menu. *)
Definition menuShown : portal :=
  {| launchError := None; loginError := None; loginFormFound := true;
     navigationError := None;
     documentAtExtraction := Some menuOnly;
     documentAtFallback := Some menuOnly |}.

(** A page whose first table has three rows and a blank first row. *)
Definition blankTitle : page :=
  {| bodyText := "Gradebook";
     tables := [ block "  " "Period 1" "SMITH JOHN" 100;
                 block "ALGEBRA II" "Period 2" "JONES MARY" 200 ] |}.

End Fixture.

(** * Vocabulary of the properties *)

(** Four entries labelled Q1 .. Q4 in that order. *)
Definition fourQuarters (c : SkywardCourse) : Prop :=
  map quarter (grades c) = quarters.

(** At least one entry is flagged current. *)
Definition someCurrent (c : SkywardCourse) : Prop :=
  existsb isCurrent (grades c) = true.

Definition currentFlags (gs : list QuarterGrade) : list bool := map isCurrent gs.

Definition onlyThird : list bool := [false; false; true; false].

(** The current quarter of a block is null or one of the four labels. *)
Definition knownQuarter (cq : option string) : Prop :=
  cq = None \/ In cq (map Some quarters).

Definition wellShaped (c : SkywardCourse) : Prop := fourQuarters c /\ someCurrent c.

Definition orFlags (a b : list bool) : list bool :=
  map (fun ab => fst ab || snd ab) (combine a b).

(** The slot of the merged record: the letter of the first instance, or
    else that of the second. *)
Definition unionLetter (ab : option string * option string) : option string :=
  match fst ab with
  | Some l => Some l
  | None => snd ab
  end.

Definition unionLetters (a b : list QuarterGrade) : list (option string) :=
  map unionLetter (combine (map letter a) (map letter b)).

(** At most one of the two entries of a slot has a letter. *)
Definition disjointSlots (a b : list QuarterGrade) : Prop :=
  Forall (fun ab => fst ab = None \/ snd ab = None) (combine (map letter a) (map letter b)).

(** A letter is null or a grade, never the empty string. *)
Definition lettersGiven (gs : list QuarterGrade) : Prop :=
  Forall (fun g => letter g <> Some "") gs.

(** No grade value is the empty string. *)
Definition valuesGiven (gv : dict (option string)) : Prop :=
  forall q, valueOf gv q <> Some "".

Definition textsGiven (rc : list gradeCell) : Prop :=
  forall c, In c rc -> text c <> "".

(** [[+-]] as a test. *)
Definition isSign (c : ascii) : bool := Ascii.eqb c "+" || Ascii.eqb c "-".

(** A capital from A to F, alone or followed by one sign. *)
Definition isGrade (s : string) : bool :=
  match s with
  | String c EmptyString => Js.between 65 70 c
  | String c (String d EmptyString) => Js.between 65 70 c && isSign d
  | _ => false
  end.

(** The grade at the start of a text whose first character is a capital from
    A to F: that capital, with the sign that follows it if there is one. *)
Definition leadingGrade (c : ascii) (rest : string) : string :=
  match rest with
  | String d _ => if isSign d then String c (String d EmptyString) else String c EmptyString
  | EmptyString => String c EmptyString
  end.

(** Every letter of the entries is a grade. *)
Definition gradedEntries (gs : list QuarterGrade) : Prop :=
  forall g l, In g gs -> letter g = Some l -> isGrade l = true.

Definition gradedValues (gv : dict (option string)) : Prop :=
  forall q l, valueOf gv q = Some l -> isGrade l = true.

Definition gradedCells (rc : list gradeCell) : Prop :=
  forall c, In c rc -> isGrade (text c) = true.

(** No browser process runs that the client does not hold. *)
Definition tidy (s : session) : Prop :=
  (length (alive s) <= 1)%nat /\ forall b, In b (alive s) -> browser s = Some b.

(** Every flag of [small] is set in [big]. *)
Definition flagsWithin (small big : list bool) : Prop :=
  Forall2 (fun a b => a = true -> b = true) small big.

(** The letter that the quarter [q] gets from the row: the text of the first
    cell aligned with its header, if the header was found. *)
Definition alignedLetter (quarterXPositions : dict Q) (rowCells : list gradeCell)
    (q : string) : option string :=
  match get quarterXPositions q with
  | Some quarterX => option_map text (matchingCell quarterX rowCells)
  | None => None
  end.

(** The record that strategy 3 pushes for a block. *)
Definition blockRecord (p : page) (b : courseBlock) : SkywardCourse :=
  {| name := cb_name b; period := cb_period b; teacher := cb_teacher b;
     grades := blockGrades (quarterPositions p) (rowCellsOf (cb_y b) (allGradeCells p)) |}.

(** * Properties *)

(** ** The shape of a course record *)

Lemma keep_In {A : Type} (o : option A) (a : A) : In a (keep o) <-> o = Some a.
Proof.
  destruct o as [b|]; simpl; split; intro H.
  - destruct H as [H|[]]. now subst.
  - left. now inversion H.
  - destruct H.
  - discriminate.
Qed.

Lemma strategy1Row_grades qc cc r c :
  strategy1Row qc cc r = Some c ->
  map quarter (grades c) = quarters /\ currentFlags (grades c) = onlyThird.
Proof.
  unfold strategy1Row.
  destruct (length (cells r) <? 2)%nat; [discriminate|].
  match goal with |- context [if ?b then None else _] => destruct b end; [discriminate|].
  match goal with |- context [if ?b then Some _ else None] => destruct b end; [|discriminate].
  intro H. inversion H; subst; clear H. simpl. split; reflexivity.
Qed.

Lemma strategy1_grades p c :
  In c (strategy1 p) ->
  map quarter (grades c) = quarters /\ currentFlags (grades c) = onlyThird.
Proof.
  unfold strategy1. rewrite in_flat_map. intros (t & _ & Hc).
  unfold strategy1Table in Hc.
  destruct (hasQuarterHeader t); [|destruct Hc].
  destruct (rows t) as [|headerRow body]; [destruct Hc|].
  destruct (headerColumns (cells headerRow)) as [qc cc].
  rewrite in_flat_map in Hc. destruct Hc as (r & _ & Hc).
  apply keep_In in Hc. eapply strategy1Row_grades; eauto.
Qed.

Lemma strategy2Row_grades r c :
  strategy2Row r = Some c ->
  map quarter (grades c) = quarters /\ currentFlags (grades c) = onlyThird.
Proof.
  unfold strategy2Row.
  destruct (tdCells r) as [|first [|second rest]]; try discriminate.
  destruct (_ && _); [|discriminate].
  destruct (firstGrade _); [|discriminate].
  intro H. inversion H; subst. split; reflexivity.
Qed.

Lemma strategy2_grades p c :
  In c (strategy2 p) ->
  map quarter (grades c) = quarters /\ currentFlags (grades c) = onlyThird.
Proof.
  unfold strategy2. rewrite in_flat_map. intros (t & _ & Hc).
  rewrite in_flat_map in Hc. destruct Hc as (r & _ & Hc).
  apply keep_In in Hc. eapply strategy2Row_grades; eauto.
Qed.

Lemma fallbackScan_grades p c :
  In c (fallbackScan p) ->
  map quarter (grades c) = quarters /\ currentFlags (grades c) = onlyThird
  /\ map letter (grades c) = [None; None; None; None].
Proof.
  unfold fallbackScan. rewrite in_flat_map. intros (t & _ & Hc).
  apply keep_In in Hc. unfold fallbackCourse in Hc.
  destruct (courseInfo t) as [[[n pe] te]|]; [|discriminate].
  inversion Hc; subst. repeat split; reflexivity.
Qed.

Lemma quarterStep_known qx rc gv cq q :
  In q quarters -> knownQuarter cq ->
  knownQuarter (snd (quarterStep qx rc (gv, cq) q)).
Proof.
  intros Hq Hcq. unfold quarterStep.
  destruct (get qx q); [|exact Hcq].
  destruct (matchingCell _ rc); [|exact Hcq].
  simpl. destruct (highlighted g); [|exact Hcq].
  right. now apply in_map.
Qed.

Lemma quarterSteps_known qx rc qs acc :
  incl qs quarters -> knownQuarter (snd acc) ->
  knownQuarter (snd (fold_left (quarterStep qx rc) qs acc)).
Proof.
  revert acc. induction qs as [|q qs IH]; intros [gv cq] Hin Hk; simpl; [exact Hk|].
  apply IH.
  - intros a Ha. apply Hin. now right.
  - apply quarterStep_known; [apply Hin; now left|exact Hk].
Qed.

(** A block has exactly one current entry. *)
Lemma blockGrades_grades qx rc :
  map quarter (blockGrades qx rc) = quarters
  /\ length (filter isCurrent (blockGrades qx rc)) = 1%nat.
Proof.
  unfold blockGrades.
  pose proof (quarterSteps_known qx rc quarters (noGrades, None) (incl_refl _)
                (or_introl eq_refl)) as Hk.
  destruct (fold_left (quarterStep qx rc) quarters (noGrades, None)) as [gv cq].
  simpl in Hk. split; [reflexivity|].
  destruct Hk as [->|Hk]; [reflexivity|].
  simpl in Hk.
  destruct Hk as [<-|[<-|[<-|[<-|[]]]]]; reflexivity.
Qed.

Lemma four_entries (gs : list QuarterGrade) :
  map quarter gs = quarters ->
  exists g0 g1 g2 g3, gs = [g0; g1; g2; g3].
Proof.
  destruct gs as [|g0 [|g1 [|g2 [|g3 [|g4 gs]]]]]; try discriminate.
  intros _. now exists g0, g1, g2, g3.
Qed.

Lemma mergeGrades_four e0 e1 e2 e3 g0 g1 g2 g3 :
  mergeGrades [e0; e1; e2; e3] [g0; g1; g2; g3]
  = [mergeSlot e0 g0; mergeSlot e1 g1; mergeSlot e2 g2; mergeSlot e3 g3].
Proof. reflexivity. Qed.

(** Merging keeps the labels and every flag that was set. *)
Lemma mergeInto_grades c new :
  fourQuarters c -> map quarter new = quarters ->
  fourQuarters (mergeInto c new)
  /\ (someCurrent c -> someCurrent (mergeInto c new)).
Proof.
  unfold fourQuarters, someCurrent. intros Hc Hn.
  destruct (four_entries _ Hc) as (e0 & e1 & e2 & e3 & He).
  destruct (four_entries _ Hn) as (g0 & g1 & g2 & g3 & Hg).
  simpl. rewrite He, Hg, mergeGrades_four. rewrite He in Hc. simpl in Hc.
  split; [exact Hc|].
  simpl.
  destruct (isCurrent g0), (isCurrent g1), (isCurrent g2), (isCurrent g3),
    (isCurrent e0), (isCurrent e1), (isCurrent e2), (isCurrent e3);
    simpl; auto.
Qed.

Lemma onlyThird_some (gs : list QuarterGrade) :
  currentFlags gs = onlyThird -> existsb isCurrent gs = true.
Proof.
  unfold currentFlags, onlyThird.
  destruct gs as [|g0 [|g1 [|g2 [|g3 [|g4 gs]]]]]; try discriminate.
  simpl. intro H. injection H as H0 H1 H2 H3. rewrite H0, H1, H2. reflexivity.
Qed.

Lemma filter_one_exists (gs : list QuarterGrade) :
  length (filter isCurrent gs) = 1%nat -> existsb isCurrent gs = true.
Proof.
  induction gs as [|g gs IH]; simpl; [discriminate|].
  destruct (isCurrent g); simpl; auto.
Qed.

Lemma mergeFirst_shape n new cs :
  map quarter new = quarters ->
  Forall wellShaped cs -> Forall wellShaped (mergeFirst n new cs).
Proof.
  intros Hn. induction 1 as [|c cs [Hq Hc] Hcs IH]; simpl; [constructor|].
  destruct (name c =? n).
  - constructor; [|assumption].
    destruct (mergeInto_grades c new Hq Hn) as [H1 H2]. split; auto.
  - constructor; [split; assumption|exact IH].
Qed.

Lemma addCourse_shape cs course new :
  map quarter new = quarters -> length (filter isCurrent new) = 1%nat ->
  Forall wellShaped cs -> Forall wellShaped (addCourse cs course new).
Proof.
  intros Hn H1 Hcs. unfold addCourse.
  destruct (find _ cs).
  - now apply mergeFirst_shape.
  - apply Forall_app. split; [exact Hcs|].
    constructor; [|constructor].
    split; [exact Hn|]. unfold someCurrent. simpl. now apply filter_one_exists.
Qed.

Lemma strategy3_shape p : Forall wellShaped (strategy3 p).
Proof.
  unfold strategy3.
  generalize (courseData p). intro blocks.
  assert (H : Forall wellShaped (@nil SkywardCourse)) by constructor.
  revert H. generalize (@nil SkywardCourse).
  induction blocks as [|b blocks IH]; intros cs Hcs; simpl; [exact Hcs|].
  apply IH. unfold strategy3Step.
  destruct (blockGrades_grades (quarterPositions p) (rowCellsOf (cb_y b) (allGradeCells p)))
    as [Hq H1].
  now apply addCourse_shape.
Qed.

(** The records of the extraction come from one of the three strategies. *)
Lemma extractInPage_courses p :
  courses (extractInPage p) = strategy1 p
  \/ courses (extractInPage p) = strategy2 p
  \/ courses (extractInPage p) = strategy3 p.
Proof.
  unfold extractInPage.
  destruct (strategy1 p) eqn:E1; [|now left].
  destruct (strategy2 p) eqn:E2; [|right; now left].
  right; right. reflexivity.
Qed.

Lemma extractInPage_shape p c :
  In c (courses (extractInPage p)) -> wellShaped c.
Proof.
  intro Hc.
  destruct (extractInPage_courses p) as [E|[E|E]]; rewrite E in Hc.
  - destruct (strategy1_grades p c Hc) as [Hq Hf]. split; [exact Hq|].
    now apply onlyThird_some.
  - destruct (strategy2_grades p c Hc) as [Hq Hf]. split; [exact Hq|].
    now apply onlyThird_some.
  - pose proof (strategy3_shape p) as H. rewrite Forall_forall in H. now apply H.
Qed.

(** ** The labelled table (C1) *)

(** C1, as the claim states it, fails: on the fixture with the header Course,
    Q1 .. Q4 and the rows BIOLOGY (A, B, -, -) and ALGEBRA II (-, -, B+, -),
    the Q3 entry of BIOLOGY is flagged current as well, so the result is not
    the one in which only the Q3 entry of ALGEBRA II is. *)
Lemma labelled_only_algebra_current_fails :
  courses (extractGradesData Fixture.live 0 (Some Fixture.labelled))
  <> [ Fixture.course "BIOLOGY" (Some "A") (Some "B") None None false false false false;
       Fixture.algebra ].
Proof. vm_compute. discriminate. Qed.

(** C1, amended: on that fixture the extraction returns exactly the two
    records BIOLOGY and ALGEBRA II with the letters A, B, null, null and null,
    null, B+, null in the quarter positions, and in each of the two records
    the Q3 entry, and only it, has isCurrent = true. *)
Theorem labelled_table_extraction :
  extractGradesData Fixture.live 0 (Some Fixture.labelled)
  = {| courses := [Fixture.biology; Fixture.algebra];
       missingAssignments := []; studentName := ""; school := "" |}.
Proof. vm_compute. reflexivity. Qed.

(** ** Four quarters in a fixed order (C10) *)

(** C10: every record of strategy 1, 2 or 3 and every record of the
    course-only scan has exactly the four entries Q1, Q2, Q3, Q4, in that
    order. *)
Theorem quarter_labels_fixed (p : page) (c : SkywardCourse) :
  In c (strategy1 p) \/ In c (strategy2 p) \/ In c (strategy3 p) \/ In c (fallbackScan p) ->
  map quarter (grades c) = ["Q1"; "Q2"; "Q3"; "Q4"].
Proof.
  intros [H|[H|[H|H]]].
  - apply (strategy1_grades p c H).
  - apply (strategy2_grades p c H).
  - pose proof (strategy3_shape p) as HS. rewrite Forall_forall in HS.
    apply (HS c H).
  - apply (fallbackScan_grades p c H).
Qed.

Lemma quarter_labels_fixed_witness :
  In Fixture.biology (strategy1 Fixture.labelled)
  /\ map quarter (grades Fixture.biology) = ["Q1"; "Q2"; "Q3"; "Q4"].
Proof.
  assert (H : In Fixture.biology (strategy1 Fixture.labelled))
    by (vm_compute; left; reflexivity).
  split; [exact H|].
  apply (quarter_labels_fixed Fixture.labelled Fixture.biology). left. exact H.
Defined.

(** The same for what the extraction as a whole returns. *)
Lemma extractGradesData_quarters s b doc c :
  In c (courses (extractGradesData s b doc)) -> map quarter (grades c) = quarters.
Proof.
  unfold extractGradesData, evaluate.
  destruct (isAlive s b); [|intros []].
  destruct doc as [p|]; simpl; [|intros []].
  intro H. apply (extractInPage_shape p c H).
Qed.

(** ** The current quarter (C5) *)

Lemma no_highlight_step qx rc gv q :
  (forall c, In c rc -> highlighted c = false) ->
  snd (quarterStep qx rc (gv, None) q) = None.
Proof.
  intro Hn. unfold quarterStep.
  destruct (get qx q) as [quarterX|]; [|reflexivity].
  destruct (matchingCell quarterX rc) as [c|] eqn:E; [|reflexivity].
  apply find_some in E. destruct E as [Hin _].
  simpl. now rewrite (Hn c Hin).
Qed.

Lemma no_highlight_steps qx rc qs gv :
  (forall c, In c rc -> highlighted c = false) ->
  snd (fold_left (quarterStep qx rc) qs (gv, None)) = None.
Proof.
  intro Hn. revert gv. induction qs as [|q qs IH]; intro gv; cbn [fold_left];
    [reflexivity|].
  pose proof (no_highlight_step qx rc gv q Hn) as H.
  destruct (quarterStep qx rc (gv, None) q) as [gv' cq']. simpl in H. subst cq'.
  apply IH.
Qed.

Lemma blockGrades_default qx rc :
  (forall c, In c rc -> highlighted c = false) ->
  currentFlags (blockGrades qx rc) = onlyThird.
Proof.
  intro Hn. unfold blockGrades.
  pose proof (no_highlight_steps qx rc quarters noGrades Hn) as H.
  destruct (fold_left (quarterStep qx rc) quarters (noGrades, None)) as [gv cq].
  simpl in H. subst cq. reflexivity.
Qed.

Lemma mergeInto_flags c new :
  fourQuarters c -> map quarter new = quarters ->
  currentFlags (grades (mergeInto c new))
  = orFlags (currentFlags (grades c)) (currentFlags new).
Proof.
  unfold fourQuarters. intros Hc Hn.
  destruct (four_entries _ Hc) as (e0 & e1 & e2 & e3 & He).
  destruct (four_entries _ Hn) as (g0 & g1 & g2 & g3 & Hg).
  simpl. rewrite He, Hg, mergeGrades_four. unfold orFlags. simpl.
  destruct (isCurrent g0), (isCurrent g1), (isCurrent g2), (isCurrent g3),
    (isCurrent e0), (isCurrent e1), (isCurrent e2), (isCurrent e3); reflexivity.
Qed.

(** C5, as the claim states it, fails: with ALGEBRA II in two blocks, the
    first without highlight (Q3 by default) and the second with Q2
    highlighted, the merged record has two current entries. *)
Lemma merged_record_two_current :
  ~ (forall c, In c (courses (extractInPage Fixture.twoPeriods)) ->
               length (filter isCurrent (grades c)) = 1%nat).
Proof.
  intro H.
  pose (c := {| name := "ALGEBRA II"; period := "Period 1"; teacher := "SMITH JOHN";
                grades := grades (Fixture.course "ALGEBRA II" (Some "A") (Some "B")
                                    None None false true true false) |}).
  assert (Hin : In c (courses (extractInPage Fixture.twoPeriods)))
    by (vm_compute; left; reflexivity).
  specialize (H c Hin). discriminate H.
Qed.

Lemma flagsWithin_refl l : flagsWithin l l.
Proof. induction l; constructor; auto. Qed.

Lemma flagsWithin_trans a b c : flagsWithin a b -> flagsWithin b c -> flagsWithin a c.
Proof.
  intro H. revert c. induction H as [|x y a b Hxy Hab IH]; intros c Hbc.
  - inversion Hbc. constructor.
  - inversion Hbc as [|y' z b' c' Hyz Hbc']; subst. constructor; [auto|].
    now apply IH.
Qed.

(** The merged record has the flags of the record and those of the block. *)
Lemma mergeInto_within c new :
  fourQuarters c -> map quarter new = quarters ->
  flagsWithin (currentFlags (grades c)) (currentFlags (grades (mergeInto c new)))
  /\ flagsWithin (currentFlags new) (currentFlags (grades (mergeInto c new))).
Proof.
  unfold fourQuarters. intros Hc Hn.
  destruct (four_entries _ Hc) as (e0 & e1 & e2 & e3 & He).
  destruct (four_entries _ Hn) as (g0 & g1 & g2 & g3 & Hg).
  simpl. rewrite He, Hg, mergeGrades_four. unfold flagsWithin. simpl.
  split; repeat first [apply Forall2_nil | apply Forall2_cons];
    destruct (isCurrent g0), (isCurrent g1), (isCurrent g2), (isCurrent g3);
    auto; discriminate.
Qed.

Lemma mergeFirst_keeps n new cs c :
  map quarter new = quarters -> Forall wellShaped cs -> In c cs ->
  exists c', In c' (mergeFirst n new cs) /\ name c' = name c
             /\ flagsWithin (currentFlags (grades c)) (currentFlags (grades c')).
Proof.
  intros Hn Hcs. induction Hcs as [|d cs [Hd _] Hcs IH]; intro Hin; [destruct Hin|].
  simpl. destruct (name d =? n) eqn:E.
  - destruct Hin as [<-|Hin].
    + exists (mergeInto d new). split; [now left|]. split; [reflexivity|].
      apply (mergeInto_within d new Hd Hn).
    + exists c. split; [now right|]. split; [reflexivity|apply flagsWithin_refl].
  - destruct Hin as [<-|Hin].
    + exists d. split; [now left|]. split; [reflexivity|apply flagsWithin_refl].
    + destruct (IH Hin) as (c' & H1 & H2 & H3). exists c'. split; [now right|]. now split.
Qed.

Lemma mergeFirst_takes n new cs c0 :
  map quarter new = quarters -> Forall wellShaped cs ->
  find (fun c => name c =? n) cs = Some c0 ->
  exists c', In c' (mergeFirst n new cs) /\ name c' = n
             /\ flagsWithin (currentFlags new) (currentFlags (grades c')).
Proof.
  intros Hn Hcs. induction Hcs as [|d cs [Hd _] Hcs IH]; simpl; [discriminate|].
  destruct (name d =? n) eqn:E.
  - intros _. exists (mergeInto d new). split; [now left|].
    split; [now apply String.eqb_eq in E|]. apply (mergeInto_within d new Hd Hn).
  - intro F. destruct (IH F) as (c' & H1 & H2 & H3). exists c'. split; [now right|]. now split.
Qed.

(** After one block: the records that were there keep their flags, and the
    record of the name of the block has the flags of the block. *)
Lemma addCourse_flags cs course new :
  map quarter new = quarters -> Forall wellShaped cs ->
  (forall c, In c cs ->
     exists c', In c' (addCourse cs course new) /\ name c' = name c
                /\ flagsWithin (currentFlags (grades c)) (currentFlags (grades c')))
  /\ exists c', In c' (addCourse cs course new) /\ name c' = cb_name course
                /\ flagsWithin (currentFlags new) (currentFlags (grades c')).
Proof.
  intros Hn Hcs. unfold addCourse.
  destruct (find (fun c => name c =? cb_name course) cs) as [c0|] eqn:F.
  - split; [intros c Hc; now apply mergeFirst_keeps|].
    exact (mergeFirst_takes _ _ _ c0 Hn Hcs F).
  - split.
    + intros c Hc. exists c. split; [apply in_or_app; now left|].
      split; [reflexivity|apply flagsWithin_refl].
    + eexists. split; [apply in_or_app; right; left; reflexivity|].
      split; [reflexivity|apply flagsWithin_refl].
Qed.

Lemma strategy3_fold_flags qx gc blocks : forall cs,
  Forall wellShaped cs ->
  (forall c, In c cs ->
     exists c', In c' (fold_left (strategy3Step qx gc) blocks cs) /\ name c' = name c
                /\ flagsWithin (currentFlags (grades c)) (currentFlags (grades c')))
  /\ (forall b, In b blocks ->
        exists c', In c' (fold_left (strategy3Step qx gc) blocks cs)
                   /\ name c' = cb_name b
                   /\ flagsWithin (currentFlags (blockGrades qx (rowCellsOf (cb_y b) gc)))
                                  (currentFlags (grades c'))).
Proof.
  induction blocks as [|b blocks IH]; intros cs Hcs; simpl.
  - split; [|intros b []].
    intros c Hc. exists c. split; [exact Hc|]. split; [reflexivity|apply flagsWithin_refl].
  - destruct (blockGrades_grades qx (rowCellsOf (cb_y b) gc)) as [Hq H1].
    pose proof (addCourse_shape cs b _ Hq H1 Hcs) as Hs.
    destruct (addCourse_flags cs b _ Hq Hcs) as [K1 K2].
    destruct (IH _ Hs) as [I1 I2]. unfold strategy3Step at 2 4. split.
    + intros c Hc. destruct (K1 c Hc) as (c1 & A1 & A2 & A3).
      destruct (I1 c1 A1) as (c' & B1 & B2 & B3). exists c'.
      split; [exact B1|]. split; [congruence|exact (flagsWithin_trans _ _ _ A3 B3)].
    + intros b' [<-|Hb'].
      * destruct K2 as (c1 & A1 & A2 & A3).
        destruct (I1 c1 A1) as (c' & B1 & B2 & B3). exists c'.
        split; [exact B1|]. split; [congruence|exact (flagsWithin_trans _ _ _ A3 B3)].
      * exact (I2 b' Hb').
Qed.

Lemma merged_pair_flags (a b : courseBlock) (ga gb : list QuarterGrade) :
  cb_name a = cb_name b -> map quarter ga = quarters -> map quarter gb = quarters ->
  exists m, addCourse (addCourse [] a ga) b gb = [m]
            /\ currentFlags (grades m) = orFlags (currentFlags ga) (currentFlags gb).
Proof.
  intros Hname Ha Hb.
  unfold addCourse. simpl. rewrite Hname, String.eqb_refl. simpl.
  eexists. split; [reflexivity|].
  apply (mergeInto_flags {| name := cb_name b; period := cb_period a;
                            teacher := cb_teacher a; grades := ga |} gb Ha Hb).
Qed.

(** C5, amended: every record of the extraction result has at least one
    entry with isCurrent = true; a record of strategy 1, of strategy 2 or of
    the course-only scan has exactly one, the third; the grades of one course
    block have exactly one, and it is the third when no cell of the row is
    highlighted; merging sets in the merged record every flag that is set in
    either instance: the record that strategy 3 returns for a name has every
    flag of every block of that name, and the record kept for two blocks of
    one name has exactly the flags of one or the other. *)
Theorem current_quarter_flags :
  (forall p c, In c (courses (extractInPage p)) -> existsb isCurrent (grades c) = true)
  /\ (forall p c, In c (strategy1 p) \/ In c (strategy2 p) \/ In c (fallbackScan p) ->
                  currentFlags (grades c) = [false; false; true; false])
  /\ (forall qx rc, length (filter isCurrent (blockGrades qx rc)) = 1%nat)
  /\ (forall qx rc, (forall c, In c rc -> highlighted c = false) ->
                    currentFlags (blockGrades qx rc) = [false; false; true; false])
  /\ (forall c new, fourQuarters c -> map quarter new = quarters ->
                    currentFlags (grades (mergeInto c new))
                    = orFlags (currentFlags (grades c)) (currentFlags new))
  /\ (forall p b, In b (courseData p) ->
        exists c, In c (strategy3 p) /\ name c = cb_name b
                  /\ flagsWithin
                       (currentFlags (blockGrades (quarterPositions p)
                                        (rowCellsOf (cb_y b) (allGradeCells p))))
                       (currentFlags (grades c)))
  /\ (forall a b ga gb,
        cb_name a = cb_name b -> map quarter ga = quarters -> map quarter gb = quarters ->
        exists m, addCourse (addCourse [] a ga) b gb = [m]
                  /\ currentFlags (grades m) = orFlags (currentFlags ga) (currentFlags gb)).
Proof.
  split; [|split; [|split; [|split; [|split; [|split]]]]].
  - intros p c H. apply (extractInPage_shape p c H).
  - intros p c [H|[H|H]].
    + apply (strategy1_grades p c H).
    + apply (strategy2_grades p c H).
    + apply (fallbackScan_grades p c H).
  - intros qx rc. apply blockGrades_grades.
  - apply blockGrades_default.
  - apply mergeInto_flags.
  - intros p b Hb. unfold strategy3.
    apply (strategy3_fold_flags (quarterPositions p) (allGradeCells p) (courseData p) []
             (Forall_nil _)).
    exact Hb.
  - apply merged_pair_flags.
Qed.

Lemma current_quarter_flags_witness :
  let b := {| cb_name := "ALGEBRA II"; cb_period := "Period 5";
              cb_teacher := "SMITH JOHN"; cb_y := 200 |} in
  In b (courseData Fixture.twoPeriods)
  /\ exists c, In c (strategy3 Fixture.twoPeriods) /\ name c = "ALGEBRA II"
               /\ flagsWithin
                    (currentFlags (blockGrades (quarterPositions Fixture.twoPeriods)
                                     (rowCellsOf 200 (allGradeCells Fixture.twoPeriods))))
                    (currentFlags (grades c)).
Proof.
  intro b.
  assert (H : In b (courseData Fixture.twoPeriods))
    by (vm_compute; right; left; reflexivity).
  split; [exact H|].
  exact (proj1 (proj2 (proj2 (proj2 (proj2 (proj2 current_quarter_flags)))))
           Fixture.twoPeriods b H).
Defined.

(** ** Merging two instances of a course (C6) *)

Lemma truthy_given (l : option string) :
  l <> Some "" -> Js.truthy l = match l with Some _ => true | None => false end.
Proof.
  destruct l as [s|]; simpl; [|reflexivity].
  intro H. destruct (String.eqb_spec s ""); [subst; now destruct H|reflexivity].
Qed.

Lemma mergeSlot_letter e g :
  letter e <> Some "" -> letter g <> Some "" ->
  letter e = None \/ letter g = None ->
  letter (mergeSlot e g) = unionLetter (letter e, letter g)
  /\ letter (mergeSlot g e) = unionLetter (letter e, letter g).
Proof.
  intros He Hg Hd. unfold mergeSlot, unionLetter. simpl.
  rewrite (truthy_given _ He), (truthy_given _ Hg).
  destruct (letter e), (letter g); simpl; auto.
  destruct Hd; discriminate.
Qed.

(** Reading a dictionary after a write. *)
Lemma get_set {A : Type} (d : dict A) (k j : string) (v : A) :
  get (set d k v) j = if k =? j then Some v else get d j.
Proof.
  induction d as [|[k' v'] d IH]; simpl.
  - reflexivity.
  - destruct (String.eqb_spec k' k) as [->|Hk]; simpl.
    + destruct (k =? j); reflexivity.
    + rewrite IH. destruct (String.eqb_spec k' j) as [->|Hj]; [|reflexivity].
      destruct (String.eqb_spec k j) as [->|]; [now destruct Hk|reflexivity].
Qed.

Lemma valuesGiven_set gv q t :
  valuesGiven gv -> t <> "" -> valuesGiven (set gv q (Some t)).
Proof.
  intros H Ht j. unfold valueOf. rewrite get_set.
  destruct (q =? j); [congruence|apply H].
Qed.

Lemma quarterSteps_given qx rc qs acc :
  textsGiven rc -> valuesGiven (fst acc) ->
  valuesGiven (fst (fold_left (quarterStep qx rc) qs acc)).
Proof.
  intro Hrc. revert acc. induction qs as [|q qs IH]; intros [gv cq] H; cbn [fold_left];
    [exact H|].
  apply IH. unfold quarterStep.
  destruct (get qx q) as [quarterX|]; [|exact H].
  destruct (matchingCell quarterX rc) as [c|] eqn:E; [|exact H].
  apply find_some in E. simpl. apply valuesGiven_set; [exact H|apply Hrc, E].
Qed.

Lemma insertByX_In c d l : In d (insertByX c l) -> d = c \/ In d l.
Proof.
  induction l as [|e l IH]; simpl.
  - intros [<-|[]]. now left.
  - destruct (Qle_bool (x c) (x e)); simpl.
    + intros [<-|H]; auto.
    + intros [<-|H]; auto. destruct (IH H); auto.
Qed.

Lemma sortByX_In d l : In d (sortByX l) -> In d l.
Proof.
  induction l as [|c l IH]; simpl; [auto|].
  intro H. apply insertByX_In in H. destruct H as [->|H]; auto.
Qed.

Lemma skipn_In {A : Type} (n : nat) (l : list A) (a : A) : In a (skipn n l) -> In a l.
Proof.
  revert l. induction n as [|n IH]; intros [|b l]; simpl; auto.
Qed.

Lemma rightmostFallback_given rc gv :
  textsGiven rc -> valuesGiven gv -> valuesGiven (rightmostFallback rc gv).
Proof.
  intros Hrc. unfold rightmostFallback.
  generalize (indexed quarters). intro iqs. revert gv.
  induction iqs as [|[i q] iqs IH]; intros gv H; simpl; [exact H|].
  apply IH.
  destruct (nth_error (lastFour (sortByX rc)) i) as [c|] eqn:E; [|exact H].
  apply valuesGiven_set; [exact H|].
  apply Hrc. apply sortByX_In. apply (skipn_In (length (sortByX rc) - 4)).
  apply (nth_error_In _ _ E).
Qed.

Lemma blockGrades_given qx rc :
  textsGiven rc -> lettersGiven (blockGrades qx rc).
Proof.
  intro Hrc. unfold blockGrades.
  pose proof (quarterSteps_given qx rc quarters (noGrades, None) Hrc) as H.
  destruct (fold_left (quarterStep qx rc) quarters (noGrades, None)) as [gv cq].
  simpl in H.
  assert (H0 : valuesGiven noGrades).
  { intro q. unfold valueOf, noGrades. simpl.
    repeat match goal with |- context [if ?b then _ else _] => destruct b end;
      discriminate. }
  specialize (H H0).
  assert (G : valuesGiven match qx with [] => rightmostFallback rc gv | _ :: _ => gv end).
  { destruct qx; [now apply rightmostFallback_given|exact H]. }
  unfold lettersGiven. repeat constructor; simpl; apply G.
Qed.

Lemma gradeCell_text c : isGradeCell c = true -> text (toGradeCell c) <> "".
Proof.
  unfold isGradeCell, toGradeCell. simpl.
  destruct (Js.removeSpaces (Js.trim (textContent c))) as [|a u]; [discriminate|].
  intros _. discriminate.
Qed.

(** The grades of every block of strategy 3 have letters that are null or
    not empty. *)
Lemma strategy3_letters_given p courseY :
  lettersGiven (blockGrades (quarterPositions p) (rowCellsOf courseY (allGradeCells p))).
Proof.
  apply blockGrades_given. intros c Hc.
  unfold rowCellsOf in Hc. apply filter_In in Hc. destruct Hc as [Hc _].
  unfold allGradeCells in Hc. apply in_map_iff in Hc. destruct Hc as (d & <- & Hd).
  apply filter_In in Hd. apply gradeCell_text, Hd.
Qed.

(** C6: two course blocks of one name whose grades have letters in disjoint
    slots are merged into one record, whichever comes first, and in both
    orders the merged record has in every slot the letter that either
    instance has there.  The letters are null or not empty, which holds for
    the grades of every block ([strategy3_letters_given]). *)
Theorem merge_disjoint_slots (a b : courseBlock) (ga gb : list QuarterGrade) :
  cb_name a = cb_name b ->
  map quarter ga = quarters -> map quarter gb = quarters ->
  lettersGiven ga -> lettersGiven gb ->
  disjointSlots ga gb ->
  exists m1 m2,
    addCourse (addCourse [] a ga) b gb = [m1]
    /\ addCourse (addCourse [] b gb) a ga = [m2]
    /\ map letter (grades m1) = unionLetters ga gb
    /\ map letter (grades m2) = unionLetters ga gb.
Proof.
  intros Hname Ha Hb Oa Ob Hd.
  destruct (four_entries _ Ha) as (a0 & a1 & a2 & a3 & ->).
  destruct (four_entries _ Hb) as (b0 & b1 & b2 & b3 & ->).
  unfold addCourse. simpl. rewrite Hname, String.eqb_refl. simpl.
  rewrite ?String.eqb_refl. unfold mergeInto. simpl.
  rewrite ?mergeGrades_four.
  eexists. eexists. split; [reflexivity|]. split; [reflexivity|].
  unfold lettersGiven in Oa, Ob. unfold disjointSlots in Hd. simpl in Hd.
  inversion Oa as [|? ? Oa0 Oa']; subst. inversion Oa' as [|? ? Oa1 Oa'']; subst.
  inversion Oa'' as [|? ? Oa2 Oa''']; subst. inversion Oa''' as [|? ? Oa3 _]; subst.
  inversion Ob as [|? ? Ob0 Ob']; subst. inversion Ob' as [|? ? Ob1 Ob'']; subst.
  inversion Ob'' as [|? ? Ob2 Ob''']; subst. inversion Ob''' as [|? ? Ob3 _]; subst.
  inversion Hd as [|? ? Hd0 Hd']; subst. inversion Hd' as [|? ? Hd1 Hd'']; subst.
  inversion Hd'' as [|? ? Hd2 Hd''']; subst. inversion Hd''' as [|? ? Hd3 _]; subst.
  simpl in Hd0, Hd1, Hd2, Hd3.
  destruct (mergeSlot_letter a0 b0 Oa0 Ob0 Hd0) as [E0 F0].
  destruct (mergeSlot_letter a1 b1 Oa1 Ob1 Hd1) as [E1 F1].
  destruct (mergeSlot_letter a2 b2 Oa2 Ob2 Hd2) as [E2 F2].
  destruct (mergeSlot_letter a3 b3 Oa3 Ob3 Hd3) as [E3 F3].
  unfold unionLetters. cbn [map combine grades].
  rewrite E0, E1, E2, E3, F0, F1, F2, F3. split; reflexivity.
Qed.

Lemma merge_disjoint_slots_witness :
  let a := {| cb_name := "ALGEBRA II"; cb_period := "Period 1";
              cb_teacher := "SMITH JOHN"; cb_y := 100 |} in
  let b := {| cb_name := "ALGEBRA II"; cb_period := "Period 5";
              cb_teacher := "SMITH JOHN"; cb_y := 200 |} in
  let ga := grades (Fixture.course "" (Some "A") None None None false false true false) in
  let gb := grades (Fixture.course "" None (Some "B") None None false true false false) in
  exists m1 m2,
    addCourse (addCourse [] a ga) b gb = [m1]
    /\ addCourse (addCourse [] b gb) a ga = [m2]
    /\ map letter (grades m1) = unionLetters ga gb
    /\ map letter (grades m2) = unionLetters ga gb.
Proof.
  intros a b ga gb.
  apply (merge_disjoint_slots a b ga gb).
  - reflexivity.
  - reflexivity.
  - reflexivity.
  - repeat constructor; discriminate.
  - repeat constructor; discriminate.
  - unfold disjointSlots. simpl.
    repeat first [apply Forall_nil | apply Forall_cons]; simpl; auto.
Defined.

(** ** Joining by position (C7) *)

Lemma Qltb_lt (a b : Q) : Qltb a b = true <-> a < b.
Proof.
  unfold Qltb. rewrite negb_true_iff. split.
  - intro H. apply Qnot_le_lt. intro Hle.
    apply Qle_bool_iff in Hle. congruence.
  - intro H. destruct (Qle_bool b a) eqn:E; [|reflexivity].
    apply Qle_bool_iff in E. exfalso. exact (Qlt_not_le _ _ H E).
Qed.

(** [find] returns the first element that passes the test. *)
Lemma find_first {A : Type} (f : A -> bool) (l : list A) (a : A) :
  find f l = Some a <->
  exists before after,
    l = (before ++ a :: after)%list /\ f a = true /\ forall d, In d before -> f d = false.
Proof.
  induction l as [|h l IH]; simpl.
  - split; [discriminate|]. intros (before & after & H & _).
    destruct before; discriminate.
  - destruct (f h) eqn:Eh.
    + split.
      * intro H. inversion H; subst. exists [], l. repeat split; auto.
        intros d [].
      * intros (before & after & H & Ha & Hb).
        destruct before as [|d before]; simpl in H; inversion H; subst; [reflexivity|].
        rewrite (Hb d (or_introl eq_refl)) in Eh. discriminate.
    + rewrite IH. split.
      * intros (before & after & H & Ha & Hb). exists (h :: before), after.
        subst. repeat split; auto. intros d [<-|Hd]; auto.
      * intros (before & after & H & Ha & Hb).
        destruct before as [|d before]; simpl in H; inversion H; subst.
        -- congruence.
        -- exists before, after. repeat split; auto. intros d' Hd'. apply Hb. now right.
Qed.

(** C7, as the claim states it, fails for the columns: in a row with two
    grade cells centred at 310 and 330 under the Q1 header centred at 320, the
    second cell is within the 30px tolerance of Q1 and is not the cell that Q1
    takes; its letter appears in no quarter of the course. *)
Lemma second_aligned_cell_not_taken :
  let a := toGradeCell (Fixture.td "A" 300 100 20) in
  let b := toGradeCell (Fixture.td "B" 320 100 20) in
  rowCellsOf 100 (allGradeCells Fixture.crowdedRow) = [a; b]
  /\ Qabs (centerX b - 320) < 30
  /\ matchingCell 320 [a; b] <> Some b
  /\ map (fun c => map letter (grades c)) (courses (extractInPage Fixture.crowdedRow))
     = [[Some "A"; None; None; None]].
Proof.
  intros a b. split; [vm_compute; reflexivity|].
  split; [reflexivity|].
  split; [vm_compute; discriminate|vm_compute; reflexivity].
Qed.

Lemma quarterSteps_letters qx rc :
  map (valueOf (fst (fold_left (quarterStep qx rc) quarters (noGrades, None)))) quarters
  = map (alignedLetter qx rc) quarters.
Proof.
  unfold quarters, alignedLetter. cbn [fold_left map]. unfold quarterStep.
  destruct (get qx "Q1") as [x1|]; [destruct (matchingCell x1 rc)|];
    (destruct (get qx "Q2") as [x2|]; [destruct (matchingCell x2 rc)|]);
    (destruct (get qx "Q3") as [x3|]; [destruct (matchingCell x3 rc)|]);
    (destruct (get qx "Q4") as [x4|]; [destruct (matchingCell x4 rc)|]);
    reflexivity.
Qed.

Lemma blockGrades_letters qx rc :
  qx <> [] -> map letter (blockGrades qx rc) = map (alignedLetter qx rc) quarters.
Proof.
  intro Hq. rewrite <- quarterSteps_letters. unfold blockGrades.
  destruct (fold_left (quarterStep qx rc) quarters (noGrades, None)) as [gv cq].
  destruct qx as [|e qx]; [now destruct Hq|]. reflexivity.
Qed.

Lemma strategy3_fold_distinct qx gc (record : courseBlock -> SkywardCourse) blocks :
  (forall b, record b = {| name := cb_name b; period := cb_period b; teacher := cb_teacher b;
                           grades := blockGrades qx (rowCellsOf (cb_y b) gc) |}) ->
  forall cs,
  NoDup (map cb_name blocks) ->
  (forall b, In b blocks -> ~ In (cb_name b) (map name cs)) ->
  fold_left (strategy3Step qx gc) blocks cs = (cs ++ map record blocks)%list.
Proof.
  intro Hr. induction blocks as [|b blocks IH]; intros cs Hnd Hfresh; simpl.
  - now rewrite app_nil_r.
  - inversion Hnd as [|? ? Hb Hnd']; subst.
    assert (F : find (fun c => name c =? cb_name b) cs = None).
    { destruct (find (fun c => name c =? cb_name b) cs) as [c|] eqn:F; [|reflexivity].
      apply find_some in F. destruct F as [Hin E]. apply String.eqb_eq in E.
      destruct (Hfresh b (or_introl eq_refl)). rewrite <- E. now apply in_map. }
    unfold strategy3Step at 2. unfold addCourse. rewrite F.
    rewrite IH; [|exact Hnd'|].
    + rewrite <- app_assoc. simpl. now rewrite Hr.
    + intros b' Hb' Hin. rewrite map_app, in_app_iff in Hin. simpl in Hin.
      destruct Hin as [Hin|[Hin|[]]].
      * exact (Hfresh b' (or_intror Hb') Hin).
      * apply Hb. rewrite Hin. now apply in_map.
Qed.

Lemma strategy3_distinct p :
  NoDup (map cb_name (courseData p)) -> strategy3 p = map (blockRecord p) (courseData p).
Proof.
  intro Hnd. unfold strategy3.
  rewrite (strategy3_fold_distinct _ _ (blockRecord p) (courseData p) (fun b => eq_refl) []
             Hnd); [reflexivity|].
  intros b _ [].
Qed.

Lemma sameRow_wd courseY c d : y c == d -> sameRow courseY c = Qltb (Qabs (d - courseY)) 40.
Proof.
  intro H. unfold sameRow, Qltb. f_equal.
  destruct (Qle_bool 40 (Qabs (y c - courseY))) eqn:E1,
           (Qle_bool 40 (Qabs (d - courseY))) eqn:E2; try reflexivity.
  - apply Qle_bool_iff in E1. rewrite H in E1. apply Qle_bool_iff in E1. congruence.
  - apply Qle_bool_iff in E2. rewrite <- H in E2. apply Qle_bool_iff in E2. congruence.
Qed.

Lemma aligned_wd quarterX c d :
  centerX c == d -> aligned quarterX c = Qltb (Qabs (d - quarterX)) 30.
Proof.
  intro H. unfold aligned, Qltb. f_equal.
  destruct (Qle_bool 30 (Qabs (centerX c - quarterX))) eqn:E1,
           (Qle_bool 30 (Qabs (d - quarterX))) eqn:E2; try reflexivity.
  - apply Qle_bool_iff in E1. rewrite H in E1. apply Qle_bool_iff in E1. congruence.
  - apply Qle_bool_iff in E2. rewrite <- H in E2. apply Qle_bool_iff in E2. congruence.
Qed.

(** C7, amended: a grade cell is in the row of a course block exactly when
    the absolute difference of their vertical positions is under 40 (35 apart
    is in the row, 45 apart is not); a quarter takes a cell of the row exactly
    when that cell is the first one of the row, in document order, whose
    horizontal centre is less than 30 from the centre of the quarter header (a
    lone cell 5 away is taken, a cell 40 away never); when a quarter header
    was found, the letter of each quarter in the grades of the block is the
    text of the cell that the quarter takes, and null when it takes none or
    has no header; and these grades are the ones of the record that strategy
    3 returns for the block, when no two blocks have one name. *)
Theorem position_join :
  (forall courseY cellsOnPage c,
      In c (rowCellsOf courseY cellsOnPage)
      <-> In c cellsOnPage /\ Qabs (y c - courseY) < 40)
  /\ (forall cellsOnPage c,
         In c cellsOnPage ->
         (y c == 535 -> In c (rowCellsOf 500 cellsOnPage))
         /\ (y c == 545 -> ~ In c (rowCellsOf 500 cellsOnPage)))
  /\ (forall quarterX rowCells c,
         matchingCell quarterX rowCells = Some c
         <-> exists before after,
               rowCells = (before ++ c :: after)%list
               /\ Qabs (centerX c - quarterX) < 30
               /\ forall d, In d before -> ~ Qabs (centerX d - quarterX) < 30)
  /\ (forall rowCells c,
         (centerX c == 305 -> matchingCell 310 [c] = Some c)
         /\ (centerX c == 350 -> matchingCell 310 rowCells <> Some c))
  /\ (forall quarterXPositions rowCells,
         quarterXPositions <> [] ->
         map letter (blockGrades quarterXPositions rowCells)
         = map (alignedLetter quarterXPositions rowCells) ["Q1"; "Q2"; "Q3"; "Q4"])
  /\ (forall p,
         NoDup (map cb_name (courseData p)) ->
         strategy3 p = map (blockRecord p) (courseData p))
  /\ (forall p b,
         NoDup (map cb_name (courseData p)) -> quarterPositions p <> [] ->
         In b (courseData p) ->
         exists c, In c (strategy3 p) /\ name c = cb_name b
                   /\ map letter (grades c)
                      = map (alignedLetter (quarterPositions p)
                               (rowCellsOf (cb_y b) (allGradeCells p)))
                            ["Q1"; "Q2"; "Q3"; "Q4"]).
Proof.
  assert (Hrow : forall courseY cellsOnPage c,
             In c (rowCellsOf courseY cellsOnPage)
             <-> In c cellsOnPage /\ Qabs (y c - courseY) < 40).
  { intros courseY cellsOnPage c. unfold rowCellsOf. rewrite filter_In.
    unfold sameRow. now rewrite Qltb_lt. }
  assert (Hcol : forall quarterX rowCells c,
             matchingCell quarterX rowCells = Some c
             <-> exists before after,
                   rowCells = (before ++ c :: after)%list
                   /\ Qabs (centerX c - quarterX) < 30
                   /\ forall d, In d before -> ~ Qabs (centerX d - quarterX) < 30).
  { intros quarterX rowCells c. unfold matchingCell. rewrite find_first.
    split; intros (before & after & H & Ha & Hb); exists before, after;
      (split; [exact H|]); unfold aligned in *.
    - split; [now apply Qltb_lt|].
      intros d Hd Hlt. apply Qltb_lt in Hlt. rewrite (Hb d Hd) in Hlt. discriminate.
    - split; [now apply Qltb_lt|].
      intros d Hd. destruct (Qltb (Qabs (centerX d - quarterX)) 30) eqn:E; [|reflexivity].
      apply Qltb_lt in E. destruct (Hb d Hd E). }
  split; [exact Hrow|]. split; [|split; [exact Hcol|split; [|split; [|split]]]].
  - intros cellsOnPage c Hin. split; intro Hy.
    + unfold rowCellsOf. apply filter_In. split; [exact Hin|].
      rewrite (sameRow_wd 500 c 535 Hy). reflexivity.
    + intro H. unfold rowCellsOf in H. apply filter_In in H. destruct H as [_ H].
      rewrite (sameRow_wd 500 c 545 Hy) in H. discriminate H.
  - intros rowCells c. split; intro Hx.
    + unfold matchingCell. simpl. rewrite (aligned_wd 310 c 305 Hx). reflexivity.
    + intro H. unfold matchingCell in H. apply find_some in H. destruct H as [_ H].
      rewrite (aligned_wd 310 c 350 Hx) in H. discriminate H.
  - apply blockGrades_letters.
  - apply strategy3_distinct.
  - intros p b Hnd Hq Hb. exists (blockRecord p b).
    split; [rewrite (strategy3_distinct p Hnd); now apply in_map|].
    split; [reflexivity|]. simpl. now apply blockGrades_letters.
Qed.

Lemma position_join_witness :
  let b := {| cb_name := "ALGEBRA II"; cb_period := "Period 1";
              cb_teacher := "SMITH JOHN"; cb_y := 100 |} in
  (NoDup (map cb_name (courseData Fixture.crowdedRow))
   /\ quarterPositions Fixture.crowdedRow <> []
   /\ In b (courseData Fixture.crowdedRow))
  /\ exists c, In c (strategy3 Fixture.crowdedRow) /\ name c = "ALGEBRA II"
               /\ map letter (grades c)
                  = map (alignedLetter (quarterPositions Fixture.crowdedRow)
                           (rowCellsOf 100 (allGradeCells Fixture.crowdedRow)))
                        ["Q1"; "Q2"; "Q3"; "Q4"].
Proof.
  intro b.
  assert (H1 : NoDup (map cb_name (courseData Fixture.crowdedRow)))
    by (vm_compute; repeat constructor; intros []).
  assert (H2 : quarterPositions Fixture.crowdedRow <> [])
    by (vm_compute; discriminate).
  assert (H3 : In b (courseData Fixture.crowdedRow))
    by (vm_compute; left; reflexivity).
  split; [repeat split; assumption|].
  exact (proj2 (proj2 (proj2 (proj2 (proj2 (proj2 position_join)))))
           Fixture.crowdedRow b H1 H2 H3).
Defined.

(** ** A page without grades (C8) *)

Lemma flat_map_nil {A B : Type} (f : A -> list B) (l : list A) :
  (forall a, In a l -> f a = []) -> flat_map f l = [].
Proof.
  induction l as [|a l IH]; simpl; intro H; [reflexivity|].
  rewrite (H a (or_introl eq_refl)). simpl. apply IH. intros b Hb. apply H. now right.
Qed.

(** A pattern that starts with [^] matches at the start only. *)
Lemma bol_later (r : Re.regex) (s : string) (p : nat) :
  Re.searchFrom (Re.Seq Re.Bol r) (S p) s = None.
Proof.
  revert p. induction s as [|c s IH]; intro p; simpl; [reflexivity|apply IH].
Qed.

Lemma grade_letter_not_space c : Js.between 65 70 c = true -> Js.isSpace c = false.
Proof.
  destruct c as [[] [] [] [] [] [] [] []]; vm_compute; congruence.
Qed.

Lemma sign_not_space c :
  (Ascii.eqb c "+" || Ascii.eqb c "-") = true -> Js.isSpace c = false.
Proof.
  destruct c as [[] [] [] [] [] [] [] []]; vm_compute; congruence.
Qed.

(** A text that is exactly a grade for strategy 2 is a grade cell for
    strategy 3. *)
Lemma gradeExact_gradeCell (u : string) :
  Re.test Pat.gradeExact u = true -> Re.test Pat.gradeCell (Js.removeSpaces u) = true.
Proof.
  unfold Re.test, Re.exec.
  change Pat.gradeExact
    with (Re.Seq Re.Bol (Re.Seq (Re.Grp Pat.grade) (Re.Seq Re.Eol Re.Eps))).
  destruct u as [|c1 u]; [vm_compute; discriminate|].
  cbn [Re.searchFrom]. rewrite bol_later.
  unfold Re.matchAt. simpl.
  destruct (Js.between 65 70 c1) eqn:E1; [|discriminate].
  rewrite (grade_letter_not_space c1 E1).
  destruct u as [|c2 u].
  - intros _. simpl. unfold Re.matchAt. simpl. rewrite E1. reflexivity.
  - destruct (Ascii.eqb c2 "+" || Ascii.eqb c2 "-") eqn:E2.
    + destruct u as [|c3 u]; [|discriminate].
      intros _. simpl. rewrite (sign_not_space c2 E2). simpl.
      unfold Re.matchAt. simpl. rewrite E1, E2. reflexivity.
    + discriminate.
Qed.

Lemma tdCells_allTd p t r c :
  In t (tables p) -> In r (rows t) -> In c (tdCells r) -> In c (allTd p).
Proof.
  intros Ht Hr Hc. unfold allTd. apply in_flat_map. exists t. split; [exact Ht|].
  apply in_flat_map. exists r. now split.
Qed.

Lemma strategy1_none p :
  (forall t, In t (tables p) -> hasQuarterHeader t = false) -> strategy1 p = [].
Proof.
  intro H. unfold strategy1. apply flat_map_nil. intros t Ht.
  unfold strategy1Table. now rewrite (H t Ht).
Qed.

Lemma strategy2_none p :
  (forall c, In c (allTd p) -> isGradeCell c = false) -> strategy2 p = [].
Proof.
  intro H. unfold strategy2. apply flat_map_nil. intros t Ht.
  apply flat_map_nil. intros r Hr.
  unfold strategy2Row.
  destruct (tdCells r) as [|first [|second rest]] eqn:E; try reflexivity.
  destruct (_ && _); [|reflexivity].
  unfold firstGrade.
  destruct (find _ (second :: rest)) as [c|] eqn:F; [|reflexivity].
  apply find_some in F. destruct F as [Hin Hc].
  assert (Hall : In c (allTd p)).
  { apply (tdCells_allTd p t r c Ht Hr). rewrite E. now right. }
  apply gradeExact_gradeCell in Hc.
  unfold isGradeCell in H. rewrite (H c Hall) in Hc. discriminate.
Qed.

Lemma strategy3_none p :
  (forall t, In t (tables p) -> courseInfo t = None) -> strategy3 p = [].
Proof.
  intro H. unfold strategy3.
  assert (E : courseData p = []).
  { unfold courseData. apply flat_map_nil. intros t Ht.
    unfold toCourseBlock. now rewrite (H t Ht). }
  now rewrite E.
Qed.

(** C8, as the claim states it, fails: on a page without any table, hence
    without quarter table, course block or grade cell, the student name and
    the school are still read off the body text. *)
Lemma empty_page_keeps_names :
  tables Fixture.noTables = []
  /\ allTd Fixture.noTables = []
  /\ extractGradesData Fixture.live 0 (Some Fixture.noTables)
     = {| courses := []; missingAssignments := [];
          studentName := "JANE Q DOE"; school := "ALTA HIGH SCHOOL" |}
  /\ extractGradesData Fixture.live 0 (Some Fixture.noTables)
     <> {| courses := []; missingAssignments := []; studentName := ""; school := "" |}.
Proof. repeat split; try reflexivity. vm_compute. discriminate. Qed.

(** C8, amended: on every page in which no table has a quarter header, no
    table is a course block and no [td] cell is a grade letter, the extraction
    returns no course and no missing assignment, with the student name and the
    school that the patterns find in the body text (the empty string when a
    pattern finds nothing); the call always returns a value, the empty result
    when the evaluation in the page fails. *)
Theorem graceful_empty (s : session) (b : nat) (p : page) :
  isAlive s b = true ->
  (forall t, In t (tables p) -> hasQuarterHeader t = false) ->
  (forall t, In t (tables p) -> courseInfo t = None) ->
  (forall c, In c (allTd p) -> isGradeCell c = false) ->
  extractGradesData s b (Some p)
  = {| courses := []; missingAssignments := [];
       studentName := match Re.exec Pat.studentName (bodyText p) with
                      | Some m => Re.whole m
                      | None => ""
                      end;
       school := match Re.exec Pat.school (bodyText p) with
                 | Some m => match Re.group1 m with Some g => g | None => "" end
                 | None => ""
                 end |}
  /\ extractGradesData s b None
     = {| courses := []; missingAssignments := []; studentName := ""; school := "" |}.
Proof.
  intros Hb H1 H3 H2. split.
  - unfold extractGradesData, evaluate. rewrite Hb. simpl.
    unfold extractInPage.
    rewrite (strategy1_none p H1), (strategy2_none p H2), (strategy3_none p H3).
    reflexivity.
  - unfold extractGradesData, evaluate. destruct (isAlive s b); reflexivity.
Qed.

Lemma graceful_empty_witness :
  extractGradesData Fixture.live 0 (Some Fixture.menuOnly)
  = {| courses := []; missingAssignments := []; studentName := ""; school := "" |}.
Proof.
  apply (graceful_empty Fixture.live 0 Fixture.menuOnly).
  - reflexivity.
  - intros t [<-|[]]. reflexivity.
  - intros t [<-|[]]. reflexivity.
  - intros c [<-|[<-|[]]]; reflexivity.
Defined.

(** ** The browser session (C2, C4) *)

Lemma isAlive_head n l k : isAlive {| browser := Some n; alive := n :: l; launched := k |} n = true.
Proof. unfold isAlive. simpl. now rewrite Nat.eqb_refl. Qed.

Lemma ensureBrowser_live env s s1 b :
  ensureBrowser env s = (s1, inl b) -> browser s1 = Some b /\ isAlive s1 b = true.
Proof.
  unfold ensureBrowser, init, launch.
  destruct (browser s) as [b0|] eqn:Eb.
  - destruct (isAlive s b0) eqn:Ea.
    + rewrite Eb. intro H. inversion H; subst. now split.
    + destruct (launchError env); simpl; intro H; inversion H; subst.
      split; [reflexivity|apply isAlive_head].
  - destruct (launchError env); simpl; intro H; inversion H; subst.
    split; [reflexivity|apply isAlive_head].
Qed.

Lemma closeBrowser_none s : browser (closeBrowser s) = None.
Proof. unfold closeBrowser. destruct (browser s) eqn:E; [reflexivity|exact E]. Qed.

Lemma closeBrowser_dead s b : browser s = Some b -> isAlive (closeBrowser s) b = false.
Proof.
  intro H. unfold closeBrowser, isAlive. rewrite H. simpl.
  induction (alive s) as [|a l IH]; simpl; [reflexivity|].
  destruct (Nat.eqb a b) eqn:E; simpl; [exact IH|].
  rewrite Nat.eqb_sym, E. exact IH.
Qed.

(** After the browser is closed, nothing can be evaluated in its pages. *)
Lemma evaluate_closed {A : Type} s b doc (f : page -> A) :
  browser s = Some b -> evaluate (closeBrowser s) b doc f = None.
Proof. intro H. unfold evaluate. now rewrite (closeBrowser_dead s b H). Qed.

(** A successful call returns the courses of the extraction and never those
    of the course-only scan. *)
Lemma scrapeGrades_success env s :
  success (snd (scrapeGrades env s)) = true ->
  exists s1 b,
    ensureBrowser env s = (s1, inl b)
    /\ courses (extractGradesData s1 b (documentAtExtraction env)) <> []
    /\ resultCourses (snd (scrapeGrades env s))
       = Some (courses (extractGradesData s1 b (documentAtExtraction env))).
Proof.
  unfold scrapeGrades.
  destruct (ensureBrowser env s) as [s1 [b|msg]] eqn:E; [|discriminate].
  destruct (ensureBrowser_live env s s1 b E) as [Hb _].
  destruct (loginError env); [discriminate|].
  destruct (loginFormFound env); [|discriminate]. simpl.
  destruct (navigationError env); [discriminate|].
  rewrite (evaluate_closed s1 b _ fallbackScan Hb).
  destruct (courses (extractGradesData s1 b (documentAtExtraction env))) eqn:Ec;
    [discriminate|].
  intros _. exists s1, b.
  split; [reflexivity|]. rewrite Ec. split; [discriminate|reflexivity].
Qed.

Lemma length_scan p : length (fallbackScan p) = length (courseData p).
Proof.
  unfold fallbackScan, courseData.
  induction (tables p) as [|t l IH]; simpl; [reflexivity|].
  rewrite !length_app, IH. f_equal.
  unfold fallbackCourse, toCourseBlock.
  destruct (courseInfo t) as [[[n pe] te]|]; reflexivity.
Qed.

Lemma mergeFirst_length n new cs : length (mergeFirst n new cs) = length cs.
Proof.
  induction cs as [|c cs IH]; simpl; [reflexivity|].
  destruct (name c =? n); simpl; [reflexivity|now rewrite IH].
Qed.

Lemma addCourse_grows cs course new : (length cs <= length (addCourse cs course new))%nat.
Proof.
  unfold addCourse. destruct (find _ cs).
  - now rewrite mergeFirst_length.
  - rewrite length_app. simpl. lia.
Qed.

Lemma strategy3_some p : courseData p <> [] -> strategy3 p <> [].
Proof.
  unfold strategy3. intro H.
  assert (G : forall blocks cs,
             (blocks <> [] \/ cs <> []) ->
             fold_left (strategy3Step (quarterPositions p) (allGradeCells p)) blocks cs <> []).
  { induction blocks as [|b blocks IH]; intros cs Hc; simpl.
    - destruct Hc as [Hc|Hc]; [now destruct Hc|exact Hc].
    - apply IH. right. unfold strategy3Step.
      pose proof (addCourse_grows cs b
                    (blockGrades (quarterPositions p) (rowCellsOf (cb_y b) (allGradeCells p)))) as L.
      intro E. rewrite E in L. simpl in L.
      destruct cs; [|simpl in L; lia].
      unfold addCourse in E. simpl in E. discriminate. }
  apply G. now left.
Qed.

(** X6: on one and the same document, strategy 3 finds every course block
    that the course-only scan finds: where the scan would find a block, the
    extraction has a course. *)
Lemma fallbackScan_covered p : fallbackScan p <> [] -> courses (extractInPage p) <> [].
Proof.
  intro H.
  assert (H3 : strategy3 p <> []).
  { apply strategy3_some. intro E.
    pose proof (length_scan p) as L. rewrite E in L.
    destruct (fallbackScan p); [now destruct H|discriminate]. }
  unfold extractInPage.
  destruct (strategy1 p); [|discriminate].
  destruct (strategy2 p); [|discriminate].
  exact H3.
Qed.

(** C2: the code closes the browser before it issues the course-only scan,
    so the scan is rejected and yields nothing.  In the call below the
    extraction finds no course and the page holds a course block when the scan
    is issued; the claim wants success with that block, the code answers that
    no grades were found. *)
Theorem fallback_scan_lost :
  courses (extractGradesData Fixture.live 0 (documentAtExtraction Fixture.lateBlocks)) = []
  /\ (exists p c, documentAtFallback Fixture.lateBlocks = Some p
                  /\ fallbackScan p = [c]
                  /\ map letter (grades c) = [None; None; None; None])
  /\ snd (scrapeGrades Fixture.lateBlocks newSession) = failure noGradesFound
  /\ (forall env s, success (snd (scrapeGrades env s)) = true ->
        exists s1 b, resultCourses (snd (scrapeGrades env s))
                     = Some (courses (extractGradesData s1 b (documentAtExtraction env)))
                     /\ courses (extractGradesData s1 b (documentAtExtraction env)) <> []).
Proof.
  split; [reflexivity|]. split.
  - eexists. eexists. split; [reflexivity|]. split; vm_compute; reflexivity.
  - split; [vm_compute; reflexivity|].
    intros env s H. destruct (scrapeGrades_success env s H) as (s1 & b & _ & Hc & Hr).
    exists s1, b. now split.
Qed.

(** C4, as the claim states it, fails: after a call of [scrapeGrades] that
    succeeds, the browser it used is closed and the handle is cleared; the next
    [init] launches a second process. *)
Lemma browser_closed_after_success :
  let after := fst (scrapeGrades Fixture.gradesShown newSession) in
  success (snd (scrapeGrades Fixture.gradesShown newSession)) = true
  /\ browser after = None
  /\ isAlive after 0 = false
  /\ fst (init Fixture.gradesShown after)
     = {| browser := Some 1%nat; alive := [1%nat]; launched := 2 |}.
Proof. vm_compute. repeat split; reflexivity. Qed.

(** Past the login form, every path of [scrapeGrades] ends with the browser
    that [ensureBrowser] gave closed. *)
Lemma scrapeGrades_closes env s s1 r :
  error (snd (scrapeGrades env s)) <> Some "Could not find login form" ->
  ensureBrowser env s = (s1, r) ->
  fst (scrapeGrades env s) = closeBrowser s1.
Proof.
  intros Herr E. revert Herr. unfold scrapeGrades, scrapeFailed. rewrite E.
  destruct r as [b|msg]; [|reflexivity].
  destruct (loginError env); [reflexivity|].
  destruct (loginFormFound env); simpl; [|intro H; now destruct H].
  destruct (navigationError env); [reflexivity|].
  intros _.
  destruct (courses (extractGradesData s1 b (documentAtExtraction env))); [|reflexivity].
  destruct (match evaluate (closeBrowser s1) b (documentAtFallback env) fallbackScan with
            | Some cs => cs | None => [] end); reflexivity.
Qed.

(** C4, amended: the browser is created on the first [init]; [init] keeps a
    browser that is alive and launches nothing; [scrapeGrades] closes the
    browser and clears the handle before it returns, after a success as after
    an error, on every path but the early return for a missing login form:
    the handle is null, the browser process that the call used is no longer
    alive, and the next [init] launches a new process; closing is
    idempotent. *)
Theorem session_lifecycle :
  (forall env, launchError env = None ->
     init env newSession = ({| browser := Some 0%nat; alive := [0%nat]; launched := 1 |}, None))
  /\ (forall env s b, browser s = Some b -> isAlive s b = true -> init env s = (s, None))
  /\ (forall env s,
        error (snd (scrapeGrades env s)) <> Some "Could not find login form" ->
        browser (fst (scrapeGrades env s)) = None
        /\ (forall s1 b, ensureBrowser env s = (s1, inl b) ->
                         isAlive s1 b = true
                         /\ isAlive (fst (scrapeGrades env s)) b = false)
        /\ forall env', launchError env' = None ->
             launched (fst (init env' (fst (scrapeGrades env s))))
             = S (launched (fst (scrapeGrades env s)))
             /\ browser (fst (init env' (fst (scrapeGrades env s))))
                = Some (launched (fst (scrapeGrades env s)))
             /\ isAlive (fst (init env' (fst (scrapeGrades env s))))
                        (launched (fst (scrapeGrades env s))) = true)
  /\ (forall s, closeBrowser (closeBrowser s) = closeBrowser s).
Proof.
  split; [|split; [|split]].
  - intros env H. unfold init, launch. simpl. now rewrite H.
  - intros env s b Hb Ha. unfold init. now rewrite Hb, Ha.
  - intros env s Herr.
    assert (Hn : browser (fst (scrapeGrades env s)) = None).
    { destruct (ensureBrowser env s) as [s1 r] eqn:E.
      rewrite (scrapeGrades_closes env s s1 r Herr E). apply closeBrowser_none. }
    split; [exact Hn|]. split.
    + intros s1 b E. destruct (ensureBrowser_live env s s1 b E) as [Hb Ha].
      split; [exact Ha|].
      rewrite (scrapeGrades_closes env s s1 (inl b) Herr E).
      exact (closeBrowser_dead s1 b Hb).
    + intros env' Hl. unfold init, launch. rewrite Hn, Hl. simpl.
      split; [reflexivity|]. split; [reflexivity|apply isAlive_head].
  - intro s. unfold closeBrowser at 1. now rewrite closeBrowser_none.
Qed.

Lemma session_lifecycle_witness :
  isAlive {| browser := Some 0%nat; alive := [0%nat]; launched := 1 |} 0 = true
  /\ isAlive (fst (scrapeGrades Fixture.gradesShown newSession)) 0 = false.
Proof.
  apply (proj1 (proj2 (proj1 (proj2 (proj2 session_lifecycle))
                         Fixture.gradesShown newSession
                         ltac:(vm_compute; discriminate)))
           {| browser := Some 0%nat; alive := [0%nat]; launched := 1 |} 0%nat).
  reflexivity.
Defined.

(** ** The login decision (C3) *)

(** C3: the branch of the error texts is never taken.  The first test also
    succeeds when the login form is gone, and what it lets through is caught
    by the second one.  On the error page of a rejected login (one window, no
    login form, no session marker, an error element) the claim wants a
    failure with the text of the error; the code reports a connection. *)
Theorem login_error_branch_dead :
  (forall st, fst (decideLogin st) = LoggedIn \/ fst (decideLogin st) = FormStillVisible)
  /\ hasErrorWords Fixture.rejected = true
  /\ errorText Fixture.rejected = Some "Invalid login or password."
  /\ (pageCount Fixture.rejected =? 1)%nat = true
  /\ hasLoggedInContent Fixture.rejected = false
  /\ loginFormPresent Fixture.rejected = false
  /\ decideLogin Fixture.rejected = (LoggedIn, connectedOk).
Proof.
  split.
  - intro st. unfold decideLogin.
    destruct (1 <? pageCount st)%nat, (hasLoggedInContent st), (loginFormPresent st);
      simpl; auto.
  - repeat split; vm_compute; reflexivity.
Qed.

(** ** The turn queue (C9) *)

Module TurnFacts.
Import Turn.

Lemma member_In i l : member i l = true <-> In i l.
Proof.
  unfold member. rewrite existsb_exists. split.
  - intros (x & Hx & E). apply Nat.eqb_eq in E. now subst.
  - intro H. exists i. split; [exact H|apply Nat.eqb_refl].
Qed.

Lemma invariant_start : invariant start.
Proof.
  constructor; simpl; try (constructor; fail); auto; try discriminate.
Qed.

Lemma single_holder s i :
  (length (holding s) <= 1)%nat -> In i (holding s) -> holding s = [i].
Proof.
  destruct (holding s) as [|h [|h' l]]; simpl; intros L H.
  - destruct H.
  - destruct H as [->|[]]. reflexivity.
  - lia.
Qed.

Lemma invariant_step s e s' : invariant s -> step s e = Some s' -> invariant s'.
Proof.
  intros [Hnd Hord Hsing Hflag Hbusy]. destruct e as [i|i|i]; simpl.
  - destruct (member i (arrived s)) eqn:Em; [discriminate|].
    assert (Hi : ~ In i (arrived s)).
    { intro H. apply member_In in H. congruence. }
    unfold waitForTurn.
    destruct (isOperationInProgress (turn s)) eqn:Ef; simpl; intro H; inversion H; subst;
      clear H.
    + constructor; simpl.
      * apply NoDup_app; [exact Hnd|repeat constructor; intros []|].
        intros x Hx [<-|[]]. exact (Hi Hx).
      * rewrite Hord, <- !app_assoc. reflexivity.
      * exact Hsing.
      * discriminate.
      * intros _. apply Hbusy. reflexivity.
    + destruct (Hflag eq_refl) as [Hh Hq].
      constructor; simpl.
      * apply NoDup_app; [exact Hnd|repeat constructor; intros []|].
        intros x Hx [<-|[]]. exact (Hi Hx).
      * rewrite Hord, Hh, Hq. simpl. rewrite !app_nil_r. reflexivity.
      * rewrite Hh. simpl. lia.
      * discriminate.
      * intros _. rewrite Hh. discriminate.
  - destruct (member i (holding s)); [|discriminate].
    intro H. inversion H; subst. now constructor.
  - destruct (member i (holding s)) eqn:Em; [|discriminate].
    apply member_In in Em.
    pose proof (single_holder s i Hsing Em) as Hh.
    unfold releaseTurn.
    destruct (operationQueue (turn s)) as [|next rest] eqn:Eq; simpl;
      intro H; inversion H; subst; clear H; rewrite Hh; simpl; rewrite Nat.eqb_refl; simpl.
    + constructor; simpl.
      * exact Hnd.
      * rewrite Hord, Hh. simpl. rewrite !app_nil_r. reflexivity.
      * lia.
      * auto.
      * discriminate.
    + constructor; simpl.
      * exact Hnd.
      * rewrite Hord, Hh. simpl. rewrite <- app_assoc. reflexivity.
      * lia.
      * discriminate.
      * discriminate.
Qed.

Lemma exec_app s t1 t2 :
  exec s (t1 ++ t2) = match exec s t1 with Some s' => exec s' t2 | None => None end.
Proof.
  revert s. induction t1 as [|e t1 IH]; intro s; simpl; [reflexivity|].
  destruct (step s e); [apply IH|reflexivity].
Qed.

Lemma invariant_exec tr : forall s s', invariant s -> exec s tr = Some s' -> invariant s'.
Proof.
  induction tr as [|e tr IH]; simpl; intros s s' Hi H.
  - inversion H; now subst.
  - destruct (step s e) as [s1|] eqn:E; [|discriminate].
    apply (IH s1 s'); [exact (invariant_step s e s1 Hi E)|exact H].
Qed.

(** The two histories are the calls and the releases of the trace. *)
Lemma step_history s e s' :
  step s e = Some s' ->
  arrived s' = (arrived s ++ begins [e])%list
  /\ finished s' = (finished s ++ finishes [e])%list.
Proof.
  destruct e as [i|i|i]; simpl.
  - destruct (member i (arrived s)); [discriminate|].
    destruct (waitForTurn i (turn s)) as [q now].
    intro H. inversion H; subst. simpl. now rewrite app_nil_r.
  - destruct (member i (holding s)); [|discriminate].
    intro H. inversion H; subst. now rewrite !app_nil_r.
  - destruct (member i (holding s)); [|discriminate].
    destruct (releaseTurn (turn s)) as [q resumed].
    intro H. inversion H; subst. simpl. now rewrite app_nil_r.
Qed.

Lemma exec_history tr : forall s s',
  exec s tr = Some s' ->
  arrived s' = (arrived s ++ begins tr)%list
  /\ finished s' = (finished s ++ finishes tr)%list.
Proof.
  induction tr as [|e tr IH]; simpl; intros s s' H.
  - inversion H; subst. now rewrite !app_nil_r.
  - destruct (step s e) as [s1|] eqn:E; [|discriminate].
    destruct (step_history s e s1 E) as [Ha Hf].
    destruct (IH s1 s' H) as [Ha' Hf'].
    rewrite Ha', Hf', Ha, Hf, <- !app_assoc.
    unfold begins, finishes. simpl. rewrite !app_nil_r. now split.
Qed.

Lemma begins_app t1 t2 : begins (t1 ++ t2) = (begins t1 ++ begins t2)%list.
Proof. unfold begins. apply flat_map_app. Qed.

Lemma finishes_In i tr : In i (finishes tr) <-> In (Finish i) tr.
Proof.
  unfold finishes. rewrite in_flat_map. split.
  - intros (e & He & Hi). destruct e; simpl in Hi; try (destruct Hi; fail).
    destruct Hi as [->|[]]. exact He.
  - intro H. exists (Finish i). split; [exact H|now left].
Qed.

(** In a list without repetition an element splits the list in one way. *)
Lemma split_unique (b : nat) (l1 l2 k1 k2 : list nat) :
  NoDup (l1 ++ b :: l2) -> (l1 ++ b :: l2 = k1 ++ b :: k2)%list -> l1 = k1.
Proof.
  revert k1. induction l1 as [|x l1 IH]; intros k1 Hnd E.
  - destruct k1 as [|y k1]; [reflexivity|].
    simpl in E. inversion E; subst. simpl in Hnd. inversion Hnd as [|? ? Hn _]; subst.
    destruct Hn. apply in_or_app. right. now left.
  - destruct k1 as [|y k1]; simpl in E; inversion E; subst.
    + simpl in Hnd. inversion Hnd as [|? ? Hn _]; subst.
      destruct Hn. apply in_or_app. right. now left.
    + f_equal. apply IH; [|assumption].
      simpl in Hnd. now inversion Hnd.
Qed.

End TurnFacts.

(** C9: in every run of scrape operations around the queue, at most one
    operation holds the turn; the operations are served in the order of their
    calls (those that have finished, then the holder, then the waiting ones
    make up the order of arrival); and when B is called after A has begun,
    every browser interaction of B comes after the [finally] block of A has
    released the turn. *)
Theorem turns_are_fifo (tr : list Turn.event) (s : Turn.system) :
  Turn.exec Turn.start tr = Some s ->
  (length (Turn.holding s) <= 1)%nat
  /\ Turn.arrived s
     = (Turn.finished s ++ Turn.holding s ++ Turn.operationQueue (Turn.turn s))%list
  /\ Turn.finished s = Turn.finishes tr
  /\ forall t1 a t2 b t3 t4,
       tr = (t1 ++ Turn.Begin a :: t2 ++ Turn.Begin b :: t3 ++ Turn.Interact b :: t4)%list ->
       In (Turn.Finish a) (t2 ++ t3).
Proof.
  intro Hex.
  pose proof (TurnFacts.invariant_exec tr _ _ TurnFacts.invariant_start Hex) as Hinv.
  split; [apply Hinv|]. split; [apply Hinv|].
  split; [apply (TurnFacts.exec_history tr _ _ Hex)|].
  intros t1 a t2 b t3 t4 ->.
  (* the state in which B interacts *)
  replace (t1 ++ Turn.Begin a :: t2 ++ Turn.Begin b :: t3 ++ Turn.Interact b :: t4)%list
    with ((t1 ++ Turn.Begin a :: t2 ++ Turn.Begin b :: t3) ++ Turn.Interact b :: t4)%list
    in Hex
    by (rewrite <- app_assoc; simpl; rewrite <- app_assoc; reflexivity).
  rewrite TurnFacts.exec_app in Hex.
  destruct (Turn.exec Turn.start (t1 ++ Turn.Begin a :: t2 ++ Turn.Begin b :: t3))
    as [s3|] eqn:E3; [|discriminate].
  simpl in Hex.
  destruct (Turn.member b (Turn.holding s3)) eqn:Hb; [|discriminate].
  apply TurnFacts.member_In in Hb.
  pose proof (TurnFacts.invariant_exec _ _ _ TurnFacts.invariant_start E3) as I3.
  pose proof (TurnFacts.single_holder s3 b (Turn.inv_single _ I3) Hb) as Hh.
  destruct (TurnFacts.exec_history _ _ _ E3) as [Ha3 Hf3]. simpl in Ha3, Hf3.
  pose proof (Turn.inv_order _ I3) as Hord. rewrite Hh in Hord.
  pose proof (Turn.inv_nodup _ I3) as Hnd.
  (* A has finished there *)
  assert (Hfin : Turn.finished s3 = (Turn.begins t1 ++ a :: Turn.begins t2)%list).
  { symmetry.
    apply (TurnFacts.split_unique b _ (Turn.begins t3) _ (Turn.operationQueue (Turn.turn s3))).
    - rewrite <- app_assoc. simpl.
      rewrite Ha3 in Hnd. rewrite TurnFacts.begins_app in Hnd. simpl in Hnd.
      rewrite TurnFacts.begins_app in Hnd. simpl in Hnd. exact Hnd.
    - rewrite <- app_assoc. simpl. simpl in Hord. rewrite <- Hord, Ha3.
      rewrite TurnFacts.begins_app. simpl. rewrite TurnFacts.begins_app. reflexivity. }
  assert (Hin : In (Turn.Finish a) (t1 ++ Turn.Begin a :: t2 ++ Turn.Begin b :: t3)).
  { apply TurnFacts.finishes_In. rewrite <- Hf3, Hfin. apply in_or_app. right. now left. }
  (* and not before it began *)
  apply in_app_or in Hin. destruct Hin as [Hin|[Hin|Hin]]; [|discriminate|].
  - exfalso.
    rewrite TurnFacts.exec_app in E3.
    destruct (Turn.exec Turn.start t1) as [s1|] eqn:E1; [|discriminate].
    simpl in E3.
    destruct (Turn.member a (Turn.arrived s1)) eqn:Ea; [discriminate|].
    pose proof (TurnFacts.invariant_exec _ _ _ TurnFacts.invariant_start E1) as I1.
    destruct (TurnFacts.exec_history _ _ _ E1) as [_ Hf1]. simpl in Hf1.
    assert (Hm : In a (Turn.arrived s1)).
    { rewrite (Turn.inv_order _ I1). apply in_or_app. left.
      rewrite Hf1. now apply TurnFacts.finishes_In. }
    apply TurnFacts.member_In in Hm. congruence.
  - apply in_app_or in Hin. apply in_or_app.
    destruct Hin as [Hin|[Hin|Hin]]; [now left|discriminate|now right].
Qed.

Lemma turns_are_fifo_witness :
  let tr := [Turn.Begin 1; Turn.Interact 1; Turn.Begin 2; Turn.Begin 3; Turn.Finish 1;
             Turn.Interact 2; Turn.Finish 2; Turn.Interact 3]%nat in
  exists s, Turn.exec Turn.start tr = Some s /\ (length (Turn.holding s) <= 1)%nat.
Proof.
  intro tr.
  exists {| Turn.turn := {| Turn.isOperationInProgress := true; Turn.operationQueue := [] |};
            Turn.holding := [3%nat]; Turn.arrived := [1; 2; 3]%nat;
            Turn.finished := [1; 2]%nat |}.
  split; [reflexivity|].
  apply (turns_are_fifo tr). reflexivity.
Defined.

(** * Further properties of the client *)

(** ** The queue never stalls *)

(** X1: in every state that the operations reach, nobody waits while the turn
    is free (without a holder the flag is off and the queue is empty), and the
    holder can always release: its [finally] hands the turn to the operation
    at the head of the queue and leaves the others waiting in their order. *)
Theorem turn_never_stalls (tr : list Turn.event) (s : Turn.system) :
  Turn.exec Turn.start tr = Some s ->
  (Turn.holding s = [] ->
     Turn.isOperationInProgress (Turn.turn s) = false
     /\ Turn.operationQueue (Turn.turn s) = [])
  /\ (forall i, In i (Turn.holding s) ->
        exists s',
          Turn.step s (Turn.Finish i) = Some s'
          /\ Turn.holding s' = firstn 1 (Turn.operationQueue (Turn.turn s))
          /\ Turn.operationQueue (Turn.turn s') = skipn 1 (Turn.operationQueue (Turn.turn s))).
Proof.
  intro Hex.
  pose proof (TurnFacts.invariant_exec tr _ _ TurnFacts.invariant_start Hex) as I.
  split.
  - intro Hh.
    destruct (Turn.isOperationInProgress (Turn.turn s)) eqn:Ef.
    + destruct (Turn.inv_busy _ I Ef Hh).
    + split; [reflexivity|]. apply (Turn.inv_flag _ I Ef).
  - intros i Hi.
    pose proof (TurnFacts.single_holder s i (Turn.inv_single _ I) Hi) as Hh.
    unfold Turn.step.
    assert (Hm : Turn.member i (Turn.holding s) = true) by now apply TurnFacts.member_In.
    rewrite Hm. unfold Turn.releaseTurn.
    destruct (Turn.operationQueue (Turn.turn s)) as [|next rest]; eexists;
      (split; [reflexivity|]); simpl; rewrite Hh; simpl; rewrite Nat.eqb_refl; simpl;
      split; reflexivity.
Qed.

Lemma turn_never_stalls_witness :
  let tr := [Turn.Begin 1; Turn.Begin 2; Turn.Begin 3]%nat in
  exists s s',
    Turn.exec Turn.start tr = Some s
    /\ Turn.step s (Turn.Finish 1%nat) = Some s'
    /\ Turn.holding s' = [2%nat].
Proof.
  intro tr.
  assert (E : Turn.exec Turn.start tr
              = Some {| Turn.turn := {| Turn.isOperationInProgress := true;
                                        Turn.operationQueue := [2; 3]%nat |};
                        Turn.holding := [1%nat]; Turn.arrived := [1; 2; 3]%nat;
                        Turn.finished := [] |}) by reflexivity.
  destruct (proj2 (turn_never_stalls tr _ E) 1%nat (or_introl eq_refl)) as (s' & H1 & H2 & _).
  eexists. exists s'. split; [exact E|]. split; [exact H1|exact H2].
Defined.

(** ** One browser at most *)

Lemma tidy_none s : tidy s -> browser s = None -> alive s = [].
Proof.
  intros [_ H] Hb. destruct (alive s) as [|a l]; [reflexivity|].
  specialize (H a (or_introl eq_refl)). congruence.
Qed.

Lemma isAlive_In s b : isAlive s b = true <-> In b (alive s).
Proof.
  unfold isAlive. rewrite existsb_exists. split.
  - intros (x & Hx & E). apply Nat.eqb_eq in E. now subst.
  - intro H. exists b. split; [exact H|apply Nat.eqb_refl].
Qed.

Lemma tidy_dead s b : tidy s -> browser s = Some b -> isAlive s b = false -> alive s = [].
Proof.
  intros [_ H] Hb Hd. destruct (alive s) as [|a l] eqn:E; [reflexivity|].
  assert (Ha : In a (alive s)) by (rewrite E; now left).
  pose proof (H a (or_introl eq_refl)) as Hs.
  rewrite Hb in Hs. inversion Hs; subst.
  apply isAlive_In in Ha. congruence.
Qed.

Lemma tidy_launch env s : alive s = [] -> tidy (fst (launch env s)).
Proof.
  intro Ha. unfold launch, tidy. destruct (launchError env); simpl; rewrite Ha; simpl.
  - split; [lia|intros b []].
  - split; [lia|intros b [<-|[]]; reflexivity].
Qed.

Lemma tidy_init env s : tidy s -> tidy (fst (init env s)).
Proof.
  intro H. unfold init.
  destruct (browser s) as [b|] eqn:Eb.
  - destruct (isAlive s b) eqn:Ea; [exact H|].
    apply tidy_launch. exact (tidy_dead s b H Eb Ea).
  - apply tidy_launch. exact (tidy_none s H Eb).
Qed.

Lemma tidy_close s : tidy s -> tidy (closeBrowser s).
Proof.
  intros [Hl Ho]. unfold closeBrowser.
  destruct (browser s) as [b|] eqn:Eb; [|split; [exact Hl|now rewrite Eb in *]].
  assert (E : filter (fun b' => negb (b' =? b)%nat) (alive s) = []).
  { assert (G : forall l, (forall a, In a l -> Some b = Some a) ->
                  filter (fun b' => negb (b' =? b)%nat) l = []).
    { induction l as [|a l IH]; intro Hall; simpl; [reflexivity|].
      pose proof (Hall a (or_introl eq_refl)) as Ha. inversion Ha; subst.
      rewrite Nat.eqb_refl. simpl. apply IH. intros x Hx. apply Hall. now right. }
    apply G. intros a Ha. apply (Ho a Ha). }
  split; simpl; rewrite E; simpl; [lia|intros x []].
Qed.

Lemma tidy_ensure env s : tidy s -> tidy (fst (ensureBrowser env s)).
Proof.
  intro H. unfold ensureBrowser.
  pose proof (tidy_init env s H) as Hi.
  destruct (init env s) as [s' [msg|]]; simpl in *; [exact Hi|].
  destruct (browser s'); exact Hi.
Qed.

Lemma tidy_scrapeGrades env s : tidy s -> tidy (fst (scrapeGrades env s)).
Proof.
  intro H. unfold scrapeGrades, scrapeFailed.
  pose proof (tidy_ensure env s H) as He.
  destruct (ensureBrowser env s) as [s1 [b|msg]]; simpl in He; [|now apply tidy_close].
  destruct (loginError env); [now apply tidy_close|].
  destruct (loginFormFound env); simpl; [|exact He].
  destruct (navigationError env); [now apply tidy_close|].
  destruct (courses (extractGradesData s1 b (documentAtExtraction env))).
  - destruct (match evaluate (closeBrowser s1) b (documentAtFallback env) fallbackScan with
              | Some cs => cs | None => [] end); now apply tidy_close.
  - now apply tidy_close.
Qed.

Lemma tidy_scrapeCourseDetails decode env s n :
  tidy s -> tidy (fst (scrapeCourseDetails decode env s n)).
Proof.
  intro H. unfold scrapeCourseDetails, detailsFailed.
  pose proof (tidy_ensure env s H) as He.
  destruct (ensureBrowser env s) as [s1 [b|msg]]; simpl in He; [|now apply tidy_close].
  destruct (loginError env); [now apply tidy_close|].
  destruct (loginFormFound env); simpl; [|exact He].
  destruct (navigationError env); [now apply tidy_close|].
  destruct (decode n); now apply tidy_close.
Qed.

Lemma tidy_perform s c : tidy s -> tidy (perform s c).
Proof.
  intro H. destruct c as [env| |env|decode env n|env request|env credentials]; simpl.
  - now apply tidy_init.
  - now apply tidy_close.
  - now apply tidy_scrapeGrades.
  - now apply tidy_scrapeCourseDetails.
  - unfold postGrades. destruct request as [[u p]|]; simpl; [|exact H].
    destruct (missingField u || missingField p); simpl; [exact H|].
    pose proof (tidy_scrapeGrades env s H) as G.
    destruct (scrapeGrades env s) as [s' r]. exact G.
  - unfold postStoredGrades. destruct credentials as [[cr|]|]; simpl; try exact H.
    pose proof (tidy_scrapeGrades env s H) as G.
    destruct (scrapeGrades env s) as [s' r]. exact G.
Qed.

(** X2: whatever calls are made on the client, in any order ([init],
    [close], [scrapeGrades], [scrapeCourseDetails], the two grade routes), at
    most one browser process is alive afterwards, and it is the one that
    [this.browser] names: no call leaves a browser behind. *)
Theorem one_browser_at_most (cs : list call) :
  (length (alive (performAll newSession cs)) <= 1)%nat
  /\ forall b, In b (alive (performAll newSession cs)) ->
               browser (performAll newSession cs) = Some b.
Proof.
  assert (G : forall s, tidy s -> tidy (performAll s cs)).
  { unfold performAll. induction cs as [|c cs IH]; intros s H; simpl; [exact H|].
    apply IH. now apply tidy_perform. }
  apply (G newSession). split; simpl; [lia|intros b []].
Qed.

(** ** Failures are returned as data *)

Lemma ensureBrowser_fails env s msg :
  launchError env = Some msg ->
  (forall b, browser s = Some b -> isAlive s b = false) ->
  ensureBrowser env s = ({| browser := None; alive := alive s; launched := launched s |}, inr msg).
Proof.
  intros Hl Hd. unfold ensureBrowser, init, launch.
  destruct (browser s) as [b|] eqn:Eb.
  - rewrite (Hd b eq_refl), Hl. reflexivity.
  - rewrite Hl. reflexivity.
Qed.

(** X3: when the browser cannot be launched and the client holds no live
    browser, [scrapeGrades] and [scrapeCourseDetails] return a failure whose
    error is their prefix followed by the message of the launch error; the
    handle stays null and no process is counted as launched. *)
Theorem launch_failure_is_reported (env : portal) (s : session) (msg : string) :
  launchError env = Some msg ->
  (forall b, browser s = Some b -> isAlive s b = false) ->
  scrapeGrades env s
  = ({| browser := None; alive := alive s; launched := launched s |},
     failure ("Failed to scrape grades: " ++ msg))
  /\ forall decode n,
       scrapeCourseDetails decode env s n
       = ({| browser := None; alive := alive s; launched := launched s |},
          detailsFailure ("Failed to scrape course details: " ++ msg)).
Proof.
  intros Hl Hd. split.
  - unfold scrapeGrades. rewrite (ensureBrowser_fails env s msg Hl Hd). reflexivity.
  - intros decode n. unfold scrapeCourseDetails.
    rewrite (ensureBrowser_fails env s msg Hl Hd). reflexivity.
Qed.

Lemma launch_failure_is_reported_witness :
  scrapeGrades Fixture.launchFails newSession
  = ({| browser := None; alive := []; launched := 0 |},
     failure "Failed to scrape grades: Failed to launch the browser process!").
Proof.
  apply (launch_failure_is_reported Fixture.launchFails newSession
           "Failed to launch the browser process!").
  - reflexivity.
  - intros b H. discriminate H.
Defined.

(** What a result of [scrapeGrades] holds, by its [success] field. *)
Lemma scrapeGrades_outcome (env : portal) (s : session) :
  let r := snd (scrapeGrades env s) in
  (success r = true ->
     error r = None
     /\ exists cs, resultCourses r = Some cs /\ cs <> []
                   /\ forall c, In c cs -> map quarter (grades c) = quarters)
  /\ (success r = false ->
        resultCourses r = None /\ resultMissingAssignments r = None
        /\ resultStudentName r = None /\ resultSchool r = None
        /\ exists msg, error r = Some msg /\ msg <> "").
Proof.
  unfold scrapeGrades, scrapeFailed.
  destruct (ensureBrowser env s) as [s1 [b|msg]] eqn:E; simpl.
  2:{ split; [discriminate|]. intros _. repeat split.
      eexists. split; [reflexivity|]. discriminate. }
  destruct (ensureBrowser_live env s s1 b E) as [Hb _].
  destruct (loginError env); simpl.
  { split; [discriminate|]. intros _. repeat split.
    eexists. split; [reflexivity|]. discriminate. }
  destruct (loginFormFound env); simpl.
  2:{ split; [discriminate|]. intros _. repeat split.
      eexists. split; [reflexivity|]. discriminate. }
  destruct (navigationError env); simpl.
  { split; [discriminate|]. intros _. repeat split.
    eexists. split; [reflexivity|]. discriminate. }
  rewrite (evaluate_closed s1 b _ fallbackScan Hb).
  destruct (courses (extractGradesData s1 b (documentAtExtraction env))) as [|c0 cs0] eqn:Ec;
    simpl.
  - split; [discriminate|]. intros _. repeat split.
    eexists. split; [reflexivity|]. discriminate.
  - split; [|discriminate]. intros _. split; [reflexivity|].
    exists (c0 :: cs0). split; [reflexivity|]. split; [discriminate|].
    intros c Hc. rewrite <- Ec in Hc.
    exact (extractGradesData_quarters s1 b _ c Hc).
Qed.

(** X4: a result of [scrapeGrades] is never partial.  Either [success] is
    true, there is no error and the courses are a non-empty list of records
    with the four quarters; or [success] is false, no course, assignment, name
    or school is given, and the error is a non-empty message. *)
Theorem scrape_result_is_whole (env : portal) (s : session) :
  let r := snd (scrapeGrades env s) in
  (success r = true /\ error r = None
   /\ exists cs, resultCourses r = Some cs /\ cs <> []
                 /\ forall c, In c cs -> map quarter (grades c) = quarters)
  \/ (success r = false
      /\ resultCourses r = None /\ resultMissingAssignments r = None
      /\ resultStudentName r = None /\ resultSchool r = None
      /\ exists msg, error r = Some msg /\ msg <> "").
Proof.
  intro r. destruct (scrapeGrades_outcome env s) as [Hs Hf]. fold r in Hs, Hf.
  destruct (success r) eqn:E.
  - left. split; [reflexivity|]. exact (Hs eq_refl).
  - right. split; [reflexivity|]. exact (Hf eq_refl).
Qed.

(** ** The grade routes *)

(** X5: the grades route answers 400, without touching the client, exactly
    when the user name or the password is missing or empty.  Otherwise it
    leaves the client as [scrapeGrades] does and answers either 200 with the
    courses of the result, which are not empty, and their number as
    [courseCount], or 500 with the error of the result (the default message of
    the route is needed only when the request cannot be read).  The route of
    the stored credentials answers 401 without touching the client when there
    are none, and 500 when they cannot be fetched; with stored credentials,
    whatever they are, also empty ones, it calls the client and answers 200 or
    500 in the same way. *)
Theorem grades_route_statuses (env : portal) (s : session)
    (username password : option string) :
  (missingField username || missingField password = true ->
     postGrades env s (Some (username, password))
     = (s, {| status := 400; body := ErrorBody "Username and password are required" |}))
  /\ (missingField username || missingField password = false ->
        fst (postGrades env s (Some (username, password))) = fst (scrapeGrades env s)
        /\ ((success (snd (scrapeGrades env s)) = true
             /\ exists cs ms n sc,
                  cs <> []
                  /\ resultCourses (snd (scrapeGrades env s)) = Some cs
                  /\ snd (postGrades env s (Some (username, password)))
                     = {| status := 200; body := GradesBody cs ms n sc (length cs) |})
            \/ (success (snd (scrapeGrades env s)) = false
                /\ exists msg,
                     error (snd (scrapeGrades env s)) = Some msg
                     /\ snd (postGrades env s (Some (username, password)))
                        = {| status := 500; body := ErrorBody msg |})))
  /\ postGrades env s None
     = (s, {| status := 500; body := ErrorBody "Failed to fetch grades from Skyward" |})
  /\ postStoredGrades env s None
     = (s, {| status := 500; body := ErrorBody "Failed to fetch grades from Skyward" |})
  /\ postStoredGrades env s (Some None)
     = (s, {| status := 401;
              body := ErrorBody "Skyward not connected. Please connect Skyward in settings." |})
  /\ (forall credentials,
        fst (postStoredGrades env s (Some (Some credentials))) = fst (scrapeGrades env s)
        /\ ((success (snd (scrapeGrades env s)) = true
             /\ exists cs ms n sc,
                  cs <> []
                  /\ resultCourses (snd (scrapeGrades env s)) = Some cs
                  /\ snd (postStoredGrades env s (Some (Some credentials)))
                     = {| status := 200; body := GradesBody cs ms n sc (length cs) |})
            \/ (success (snd (scrapeGrades env s)) = false
                /\ exists msg,
                     error (snd (scrapeGrades env s)) = Some msg
                     /\ snd (postStoredGrades env s (Some (Some credentials)))
                        = {| status := 500; body := ErrorBody msg |}))).
Proof.
  assert (G : forall out : session * response,
             out = (fst (scrapeGrades env s), gradesResponse (snd (scrapeGrades env s))) ->
             fst out = fst (scrapeGrades env s)
             /\ ((success (snd (scrapeGrades env s)) = true
                  /\ exists cs ms n sc,
                       cs <> [] /\ resultCourses (snd (scrapeGrades env s)) = Some cs
                       /\ snd out
                          = {| status := 200; body := GradesBody cs ms n sc (length cs) |})
                 \/ (success (snd (scrapeGrades env s)) = false
                     /\ exists msg,
                          error (snd (scrapeGrades env s)) = Some msg
                          /\ snd out = {| status := 500; body := ErrorBody msg |}))).
  { intros out ->. pose proof (scrapeGrades_outcome env s) as [Hs Hf].
    destruct (scrapeGrades env s) as [s' r]. simpl in *.
    split; [reflexivity|]. unfold gradesResponse.
    destruct (success r) eqn:Es.
    - left. split; [reflexivity|].
      destruct (Hs eq_refl) as (_ & cs & Hc & Hne & _).
      exists cs. rewrite Hc. do 3 eexists. split; [exact Hne|]. split; reflexivity.
    - right. split; [reflexivity|].
      destruct (Hf eq_refl) as (_ & _ & _ & _ & msg & He & Hne).
      exists msg. rewrite He. split; [reflexivity|].
      simpl. destruct (String.eqb_spec msg ""); [contradiction|reflexivity]. }
  split; [|split; [|split; [reflexivity|split; [reflexivity|split; [reflexivity|]]]]].
  - intro Hm. unfold postGrades. now rewrite Hm.
  - intro Hm. apply G. unfold postGrades. rewrite Hm.
    destruct (scrapeGrades env s) as [s' r]. reflexivity.
  - intro credentials. apply G. unfold postStoredGrades.
    destruct (scrapeGrades env s) as [s' r]. reflexivity.
Qed.

Lemma grades_route_statuses_witness :
  postGrades Fixture.gradesShown newSession (Some (Some "jdoe", Some ""))
  = (newSession, {| status := 400; body := ErrorBody "Username and password are required" |}).
Proof.
  apply (proj1 (grades_route_statuses Fixture.gradesShown newSession (Some "jdoe") (Some ""))).
  reflexivity.
Defined.

(** ** More on the extraction *)

Lemma fallbackScan_covered_witness :
  fallbackScan Fixture.blockOnly <> [] /\ courses (extractInPage Fixture.blockOnly) <> [].
Proof.
  assert (H : fallbackScan Fixture.blockOnly <> []) by (vm_compute; discriminate).
  split; [exact H|]. exact (fallbackScan_covered Fixture.blockOnly H).
Defined.

Lemma substring_none s : substring 0 0 s = "".
Proof. destruct s; reflexivity. Qed.

Lemma sub_two p : (S (S p) - p = 2)%nat. Proof. lia. Qed.
Lemma sub_one p : (S p - p = 1)%nat. Proof. lia. Qed.

Lemma matchAt_gradeAnywhere p s :
  Re.matchAt Pat.gradeAnywhere p s
  = match s with
    | String c rest =>
        if Js.between 65 70 c
        then Some {| Re.index := p; Re.whole := leadingGrade c rest;
                     Re.group1 := Some (leadingGrade c rest) |}
        else None
    | EmptyString => None
    end.
Proof.
  unfold Re.matchAt, Pat.gradeAnywhere, Pat.grade, Re.opt, Re.gradeLetter, Re.sign.
  destruct s as [|c rest]; [reflexivity|].
  cbn -[Nat.sub substring].
  destruct (Js.between 65 70 c); [|reflexivity].
  unfold leadingGrade, isSign.
  destruct rest as [|d rest]; cbn -[Nat.sub substring].
  - rewrite sub_one. reflexivity.
  - destruct (Ascii.eqb d "+" || Ascii.eqb d "-"); cbn -[Nat.sub substring].
    + rewrite sub_two. simpl. rewrite substring_none. reflexivity.
    + rewrite sub_one. simpl. reflexivity.
Qed.

Lemma leadingGrade_isGrade c rest : Js.between 65 70 c = true -> isGrade (leadingGrade c rest) = true.
Proof.
  intro H. unfold leadingGrade. destruct rest as [|d rest]; simpl; [exact H|].
  destruct (isSign d) eqn:E; simpl; [now rewrite H, E|exact H].
Qed.

Lemma searchFrom_gradeAnywhere s : forall p m,
  Re.searchFrom Pat.gradeAnywhere p s = Some m ->
  exists g, Re.group1 m = Some g /\ isGrade g = true.
Proof.
  induction s as [|c rest IH]; intros p m; cbn [Re.searchFrom append]; rewrite matchAt_gradeAnywhere.
  - discriminate.
  - destruct (Js.between 65 70 c) eqn:E.
    + intro H. inversion H; subst. simpl. eexists. split; [reflexivity|].
      now apply leadingGrade_isGrade.
    + apply IH.
Qed.

Lemma exec_gradeExact u m :
  Re.exec Pat.gradeExact u = Some m -> Re.group1 m = Some u /\ isGrade u = true.
Proof.
  unfold Re.exec.
  change Pat.gradeExact
    with (Re.Seq Re.Bol (Re.Seq (Re.Grp Pat.grade) (Re.Seq Re.Eol Re.Eps))).
  destruct u as [|c1 u]; [vm_compute; discriminate|].
  cbn [Re.searchFrom]. rewrite bol_later.
  unfold Re.matchAt. simpl.
  destruct (Js.between 65 70 c1) eqn:E1; [|discriminate].
  destruct u as [|c2 u].
  - intro H. inversion H; subst. simpl. split; reflexivity.
  - destruct (Ascii.eqb c2 "+" || Ascii.eqb c2 "-") eqn:E2; [|discriminate].
    destruct u as [|c3 u]; [|discriminate].
    intro H. inversion H; subst. simpl. split; [reflexivity|].
    unfold isSign. now rewrite E2.
Qed.

Lemma test_gradeCell u : Re.test Pat.gradeCell u = true -> isGrade u = true.
Proof.
  unfold Re.test, Re.exec.
  change Pat.gradeCell
    with (Re.Seq Re.Bol (Re.Seq Pat.grade (Re.Seq Re.Eol Re.Eps))).
  destruct u as [|c1 u]; [vm_compute; discriminate|].
  cbn [Re.searchFrom]. rewrite bol_later.
  unfold Re.matchAt. simpl.
  destruct (Js.between 65 70 c1) eqn:E1; [|discriminate].
  destruct u as [|c2 u]; [reflexivity|].
  destruct (Ascii.eqb c2 "+" || Ascii.eqb c2 "-") eqn:E2; [|discriminate].
  destruct u as [|c3 u]; [|discriminate].
  intros _. unfold isSign. now rewrite E2.
Qed.

Lemma upper_grade_letter c : Js.between 65 70 c = true -> Js.upperChar c = c.
Proof.
  destruct c as [[] [] [] [] [] [] [] []]; vm_compute; congruence.
Qed.

Lemma upper_sign c : isSign c = true -> Js.upperChar c = c.
Proof.
  destruct c as [[] [] [] [] [] [] [] []]; vm_compute; congruence.
Qed.

Lemma upper_grade u : isGrade u = true -> Js.toUpperCase u = u.
Proof.
  destruct u as [|c [|d [|e u]]]; simpl; try discriminate.
  - intro H. now rewrite (upper_grade_letter c H).
  - intro H. apply andb_true_iff in H. destruct H as [H1 H2].
    now rewrite (upper_grade_letter c H1), (upper_sign d H2).
Qed.

Lemma strategy1Row_graded qc cc r c :
  strategy1Row qc cc r = Some c -> gradedEntries (grades c).
Proof.
  unfold strategy1Row.
  destruct (length (cells r) <? 2)%nat; [discriminate|].
  match goal with |- context [if ?b then None else _] => destruct b end; [discriminate|].
  match goal with |- context [if ?b then Some _ else None] => destruct b end; [|discriminate].
  intro H. inversion H; subst; clear H. cbn [grades].
  assert (G : forall q l, quarterLetter qc (cells r) q = Some l -> isGrade l = true).
  { intros q l Hl. unfold quarterLetter in Hl.
    destruct (get qc q) as [colIdx|]; [|discriminate].
    destruct (colIdx <? length (cells r))%nat; [|discriminate].
    destruct (nth_error (cells r) colIdx) as [cl|]; [|discriminate].
    destruct (Re.exec Pat.gradeAnywhere _) as [m|] eqn:E; [|discriminate].
    destruct (searchFrom_gradeAnywhere _ _ _ E) as (g & Hg & Hok).
    congruence. }
  intros g l Hg Hl. simpl in Hg.
  destruct Hg as [<-|[<-|[<-|[<-|[]]]]]; apply (G _ _ Hl).
Qed.

Lemma strategy1_graded p c : In c (strategy1 p) -> gradedEntries (grades c).
Proof.
  unfold strategy1. rewrite in_flat_map. intros (t & _ & Hc).
  unfold strategy1Table in Hc.
  destruct (hasQuarterHeader t); [|destruct Hc].
  destruct (rows t) as [|headerRow body]; [destruct Hc|].
  destruct (headerColumns (cells headerRow)) as [qc cc].
  rewrite in_flat_map in Hc. destruct Hc as (r & _ & Hc).
  apply keep_In in Hc. eapply strategy1Row_graded; eauto.
Qed.

Lemma strategy2_graded p c : In c (strategy2 p) -> gradedEntries (grades c).
Proof.
  unfold strategy2. rewrite in_flat_map. intros (t & _ & Hc).
  rewrite in_flat_map in Hc. destruct Hc as (r & _ & Hc).
  apply keep_In in Hc. unfold strategy2Row in Hc.
  destruct (tdCells r) as [|first [|second rest]]; try discriminate.
  destruct (_ && _); [|discriminate].
  destruct (firstGrade (second :: rest)) as [g0|] eqn:F; [|discriminate].
  inversion Hc; subst; clear Hc. simpl.
  unfold firstGrade in F.
  destruct (find _ (second :: rest)) as [cl|]; [|discriminate].
  destruct (Re.exec Pat.gradeExact (Js.trim (textContent cl))) as [m|] eqn:E; [|discriminate].
  destruct (exec_gradeExact _ _ E) as [Hg Hok].
  intros g l [<-|[<-|[<-|[<-|[]]]]]; simpl; try discriminate.
  intro Hl. inversion Hl; subst. congruence.
Qed.

Lemma gradedValues_set gv q t :
  gradedValues gv -> isGrade t = true -> gradedValues (set gv q (Some t)).
Proof.
  intros H Ht j l. unfold valueOf. rewrite get_set.
  destruct (q =? j); [intro E; inversion E; now subst|apply H].
Qed.

Lemma quarterSteps_graded qx rc qs acc :
  gradedCells rc -> gradedValues (fst acc) ->
  gradedValues (fst (fold_left (quarterStep qx rc) qs acc)).
Proof.
  intro Hrc. revert acc. induction qs as [|q qs IH]; intros [gv cq] H; cbn [fold_left];
    [exact H|].
  apply IH. unfold quarterStep.
  destruct (get qx q) as [quarterX|]; [|exact H].
  destruct (matchingCell quarterX rc) as [c|] eqn:E; [|exact H].
  apply find_some in E. simpl. apply gradedValues_set; [exact H|apply Hrc, E].
Qed.

Lemma rightmostFallback_graded rc gv :
  gradedCells rc -> gradedValues gv -> gradedValues (rightmostFallback rc gv).
Proof.
  intros Hrc. unfold rightmostFallback.
  generalize (indexed quarters). intro iqs. revert gv.
  induction iqs as [|[i q] iqs IH]; intros gv H; simpl; [exact H|].
  apply IH.
  destruct (nth_error (lastFour (sortByX rc)) i) as [c|] eqn:E; [|exact H].
  apply gradedValues_set; [exact H|].
  apply Hrc. apply sortByX_In. apply (skipn_In (length (sortByX rc) - 4)).
  apply (nth_error_In _ _ E).
Qed.

Lemma blockGrades_graded qx rc : gradedCells rc -> gradedEntries (blockGrades qx rc).
Proof.
  intro Hrc. unfold blockGrades.
  pose proof (quarterSteps_graded qx rc quarters (noGrades, None) Hrc) as H.
  destruct (fold_left (quarterStep qx rc) quarters (noGrades, None)) as [gv cq].
  simpl in H.
  assert (H0 : gradedValues noGrades).
  { intros q l. unfold valueOf, noGrades. simpl.
    repeat match goal with |- context [if ?b then _ else _] => destruct b end;
      discriminate. }
  specialize (H H0).
  assert (G : gradedValues match qx with [] => rightmostFallback rc gv | _ :: _ => gv end).
  { destruct qx; [now apply rightmostFallback_graded|exact H]. }
  unfold gradedEntries. intros g l [<-|[<-|[<-|[<-|[]]]]]; simpl; apply G.
Qed.

Lemma allGradeCells_graded p courseY : gradedCells (rowCellsOf courseY (allGradeCells p)).
Proof.
  intros c Hc. unfold rowCellsOf in Hc. apply filter_In in Hc. destruct Hc as [Hc _].
  unfold allGradeCells in Hc. apply in_map_iff in Hc. destruct Hc as (d & <- & Hd).
  apply filter_In in Hd. destruct Hd as [_ Hd]. unfold isGradeCell in Hd.
  apply test_gradeCell in Hd. simpl. now rewrite (upper_grade _ Hd).
Qed.

Lemma setNth_In {A : Type} (i : nat) (v a : A) (l : list A) :
  In a (setNth i v l) -> a = v \/ In a l.
Proof.
  revert i. induction l as [|b l IH]; intros [|i]; simpl; try (intros []; fail).
  - intros [<-|H]; auto.
  - intros [<-|H]; auto. destruct (IH i H); auto.
Qed.

Lemma mergeSlot_graded e g l :
  letter (mergeSlot e g) = Some l -> letter e = Some l \/ letter g = Some l.
Proof.
  unfold mergeSlot. simpl.
  destruct (Js.truthy (letter g) && negb (Js.truthy (letter e))); auto.
Qed.

Lemma mergeGrades_graded es gs :
  gradedEntries es -> gradedEntries gs -> gradedEntries (mergeGrades es gs).
Proof.
  intros He Hg. unfold mergeGrades.
  generalize [0; 1; 2; 3]%nat. intro idx. revert es He.
  induction idx as [|i idx IH]; intros es He; simpl; [exact He|].
  apply IH. unfold mergeStep.
  destruct (nth_error gs i) as [g|] eqn:Eg; [|exact He].
  destruct (nth_error es i) as [e|] eqn:Ee; [|exact He].
  intros x l Hx Hl. apply setNth_In in Hx. destruct Hx as [->|Hx]; [|exact (He x l Hx Hl)].
  apply mergeSlot_graded in Hl. destruct Hl as [Hl|Hl].
  - exact (He e l (nth_error_In _ _ Ee) Hl).
  - exact (Hg g l (nth_error_In _ _ Eg) Hl).
Qed.

Lemma mergeFirst_graded n new cs :
  gradedEntries new ->
  Forall (fun c => gradedEntries (grades c)) cs ->
  Forall (fun c => gradedEntries (grades c)) (mergeFirst n new cs).
Proof.
  intros Hn. induction 1 as [|c cs Hc Hcs IH]; simpl; [constructor|].
  destruct (name c =? n); constructor; auto.
  simpl. now apply mergeGrades_graded.
Qed.

Lemma strategy3_graded p : Forall (fun c => gradedEntries (grades c)) (strategy3 p).
Proof.
  unfold strategy3.
  generalize (courseData p). intro blocks.
  assert (H : Forall (fun c => gradedEntries (grades c)) (@nil SkywardCourse)) by constructor.
  revert H. generalize (@nil SkywardCourse).
  induction blocks as [|b blocks IH]; intros cs Hcs; simpl; [exact Hcs|].
  apply IH. unfold strategy3Step, addCourse.
  pose proof (blockGrades_graded (quarterPositions p) _ (allGradeCells_graded p (cb_y b))) as Hb.
  destruct (find _ cs).
  - now apply mergeFirst_graded.
  - apply Forall_app. split; [exact Hcs|]. constructor; [exact Hb|constructor].
Qed.

(** X7: every letter of every record that the extraction returns, by any
    strategy and after merging, is a capital from A to F, alone or followed by
    one plus or minus sign; the other entries are null. *)
Theorem letters_are_grades (p : page) (c : SkywardCourse) (g : QuarterGrade) (l : string) :
  In c (courses (extractInPage p)) -> In g (grades c) -> letter g = Some l ->
  isGrade l = true.
Proof.
  intros Hc Hg Hl.
  assert (G : gradedEntries (grades c)).
  { destruct (extractInPage_courses p) as [E|[E|E]]; rewrite E in Hc.
    - now apply (strategy1_graded p).
    - now apply (strategy2_graded p).
    - pose proof (strategy3_graded p) as H. rewrite Forall_forall in H. now apply H. }
  exact (G g l Hg Hl).
Qed.

Lemma letters_are_grades_witness : isGrade "B+" = true.
Proof.
  apply (letters_are_grades Fixture.labelled Fixture.algebra
           {| quarter := "Q3"; letter := Some "B+"; isCurrent := true |} "B+").
  - vm_compute. right. left. reflexivity.
  - right. right. left. reflexivity.
  - reflexivity.
Defined.

Lemma searchFrom_first_capital pre c rest : forall p,
  (forall d, In d (list_ascii_of_string pre) -> Js.between 65 70 d = false) ->
  Js.between 65 70 c = true ->
  exists i,
    Re.searchFrom Pat.gradeAnywhere p (pre ++ String c rest)
    = Some {| Re.index := i; Re.whole := leadingGrade c rest;
              Re.group1 := Some (leadingGrade c rest) |}.
Proof.
  induction pre as [|d pre IH]; intros p Hpre Hc; cbn [Re.searchFrom append]; rewrite matchAt_gradeAnywhere.
  - rewrite Hc. eexists. reflexivity.
  - rewrite (Hpre d (or_introl eq_refl)). apply IH; [|exact Hc].
    intros e He. apply Hpre. now right.
Qed.

Lemma searchFrom_no_capital s : forall p,
  (forall d, In d (list_ascii_of_string s) -> Js.between 65 70 d = false) ->
  Re.searchFrom Pat.gradeAnywhere p s = None.
Proof.
  induction s as [|d s IH]; intros p H; cbn [Re.searchFrom append]; rewrite matchAt_gradeAnywhere.
  - reflexivity.
  - rewrite (H d (or_introl eq_refl)). apply IH. intros e He. apply H. now right.
Qed.

(** X8: strategy 1 reads the letter of a quarter off the first capital from A
    to F that occurs anywhere in the text of the cell, white space removed,
    with the sign that follows it directly, whatever precedes and follows; the
    letter is null exactly when the text has no such capital. *)
Theorem strategy1_reads_first_capital (quarterColumns : dict nat) (rowCells : list cell)
    (q : string) (colIdx : nat) (cl : cell) :
  get quarterColumns q = Some colIdx -> nth_error rowCells colIdx = Some cl ->
  (forall pre c rest,
      Js.removeSpaces (Js.trim (textContent cl)) = pre ++ String c rest ->
      (forall d, In d (list_ascii_of_string pre) -> Js.between 65 70 d = false) ->
      Js.between 65 70 c = true ->
      quarterLetter quarterColumns rowCells q = Some (leadingGrade c rest))
  /\ ((forall d, In d (list_ascii_of_string (Js.removeSpaces (Js.trim (textContent cl)))) ->
                 Js.between 65 70 d = false) ->
      quarterLetter quarterColumns rowCells q = None).
Proof.
  intros Hq Hn.
  assert (Hlt : (colIdx <? length rowCells)%nat = true).
  { apply Nat.ltb_lt. apply nth_error_Some. congruence. }
  split.
  - intros pre c rest E Hpre Hc. unfold quarterLetter. rewrite Hq, Hlt, Hn, E.
    unfold Re.exec.
    destruct (searchFrom_first_capital pre c rest 0 Hpre Hc) as [i ->]. reflexivity.
  - intro H. unfold quarterLetter. rewrite Hq, Hlt, Hn. unfold Re.exec.
    now rewrite searchFrom_no_capital.
Qed.

Lemma strategy1_reads_first_capital_witness :
  quarterLetter [("Q1", 1%nat)]
    [Fixture.td "BIOLOGY" 0 120 200; Fixture.td "N/A" 200 120 50] "Q1"
  = Some "A".
Proof.
  apply (proj1 (strategy1_reads_first_capital [("Q1", 1%nat)]
                  [Fixture.td "BIOLOGY" 0 120 200; Fixture.td "N/A" 200 120 50]
                  "Q1" 1%nat (Fixture.td "N/A" 200 120 50) eq_refl eq_refl)
           "N/" "A"%char "").
  - reflexivity.
  - intros d [<-|[<-|[]]]; reflexivity.
  - reflexivity.
Defined.

Lemma mergeFirst_names n new cs : map name (mergeFirst n new cs) = map name cs.
Proof.
  induction cs as [|c cs IH]; simpl; [reflexivity|].
  destruct (name c =? n); simpl; [reflexivity|now rewrite IH].
Qed.

Lemma find_name_none n (cs : list SkywardCourse) :
  find (fun c => name c =? n) cs = None -> ~ In n (map name cs).
Proof.
  intros H Hin. apply in_map_iff in Hin. destruct Hin as (c & Hc & Hin).
  pose proof (find_none _ _ H c Hin) as E. simpl in E.
  rewrite Hc, String.eqb_refl in E. discriminate.
Qed.

Lemma find_name_some n (cs : list SkywardCourse) c :
  find (fun c => name c =? n) cs = Some c -> In n (map name cs).
Proof.
  intro H. apply find_some in H. destruct H as [Hin E].
  apply String.eqb_eq in E. subst. now apply in_map.
Qed.

(** The names after one block: the same when the name is known, one more
    otherwise. *)
Lemma addCourse_names cs course new :
  NoDup (map name cs) ->
  NoDup (map name (addCourse cs course new))
  /\ (forall n, In n (map name (addCourse cs course new))
                <-> In n (map name cs) \/ n = cb_name course).
Proof.
  intro Hnd. unfold addCourse.
  destruct (find (fun c => name c =? cb_name course) cs) as [c|] eqn:F.
  - rewrite mergeFirst_names. split; [exact Hnd|].
    intro n. split; [now left|]. intros [H| ->]; [exact H|].
    exact (find_name_some _ _ _ F).
  - rewrite map_app. simpl. split.
    + apply NoDup_app; [exact Hnd|repeat constructor; intros []|].
      intros x Hx [<-|[]]. exact (find_name_none _ _ F Hx).
    + intro n. rewrite in_app_iff. simpl. split.
      * intros [H|[H|[]]]; [now left|now right].
      * intros [H| ->]; [now left|right; now left].
Qed.

Lemma strategy3_fold_names qx gc blocks : forall cs,
  NoDup (map name cs) ->
  NoDup (map name (fold_left (strategy3Step qx gc) blocks cs))
  /\ (forall n, In n (map name (fold_left (strategy3Step qx gc) blocks cs))
                <-> In n (map name cs) \/ In n (map cb_name blocks)).
Proof.
  induction blocks as [|b blocks IH]; intros cs Hnd; simpl.
  - split; [exact Hnd|]. intro n. split; [now left|]. intros [H|[]]. exact H.
  - destruct (addCourse_names cs b (blockGrades qx (rowCellsOf (cb_y b) gc)) Hnd) as [H1 H2].
    destruct (IH _ H1) as [G1 G2]. split; [exact G1|].
    intro n. rewrite G2. unfold strategy3Step. rewrite H2. split.
    + intros [[H|H]|H]; auto.
    + intros [H|[H|H]]; auto.
Qed.

(** X9: strategy 3 returns one record for every name of a course block, and
    no two records of one name: the names of the result are those of the
    blocks, without repetition, so there are at most as many records as
    blocks. *)
Theorem strategy3_one_record_per_name (p : page) :
  NoDup (map name (strategy3 p))
  /\ (forall n, In n (map name (strategy3 p)) <-> In n (map cb_name (courseData p)))
  /\ (length (strategy3 p) <= length (courseData p))%nat.
Proof.
  unfold strategy3.
  destruct (strategy3_fold_names (quarterPositions p) (allGradeCells p) (courseData p) []
              (NoDup_nil _)) as [H1 H2].
  split; [exact H1|]. split.
  - intro n. rewrite H2. simpl. split; [intros [[]|H]; exact H|now right].
  - rewrite <- (length_map name), <- (length_map cb_name).
    apply NoDup_incl_length; [exact H1|].
    intros n Hn. apply H2 in Hn. destruct Hn as [[]|Hn]. exact Hn.
Qed.

Lemma insertByX_perm c l : Permutation (c :: l) (insertByX c l).
Proof.
  induction l as [|d l IH]; simpl; [apply Permutation_refl|].
  destruct (Qle_bool (x c) (x d)); [apply Permutation_refl|].
  apply perm_trans with (d :: c :: l); [apply perm_swap|].
  now apply perm_skip.
Qed.

Lemma sortByX_perm l : Permutation l (sortByX l).
Proof.
  induction l as [|c l IH]; simpl; [constructor|].
  apply perm_trans with (c :: sortByX l); [now apply perm_skip|apply insertByX_perm].
Qed.

Lemma insertByX_sorted c l :
  StronglySorted (fun a b => x a <= x b)%Q l ->
  StronglySorted (fun a b => x a <= x b)%Q (insertByX c l).
Proof.
  induction 1 as [|d l Hs IH Hd]; simpl.
  - repeat constructor.
  - destruct (Qle_bool (x c) (x d)) eqn:E.
    + apply Qle_bool_iff in E. constructor; [now constructor|].
      constructor; [exact E|].
      rewrite Forall_forall in *. intros e He. apply Qle_trans with (x d); auto.
    + assert (Hdc : (x d <= x c)%Q).
      { apply Qlt_le_weak, Qnot_le_lt. intro H. apply Qle_bool_iff in H. congruence. }
      constructor; [exact IH|].
      rewrite Forall_forall in *. intros e He.
      apply (Permutation_in _ (Permutation_sym (insertByX_perm c l))) in He.
      destruct He as [<-|He]; auto.
Qed.

Lemma sortByX_sorted l : StronglySorted (fun a b => x a <= x b)%Q (sortByX l).
Proof.
  induction l as [|c l IH]; simpl; [constructor|now apply insertByX_sorted].
Qed.

Lemma quarterSteps_no_header rc qs acc :
  fold_left (quarterStep [] rc) qs acc = acc.
Proof.
  revert acc. induction qs as [|q qs IH]; intros [gv cq]; simpl; [reflexivity|apply IH].
Qed.

(** X10: on a page without any quarter header, strategy 3 orders the grade
    cells of the row by their left edge, keeps the last four, and gives the
    first of them to Q1, the second to Q2 and so on; with fewer than four
    cells the later quarters stay null.  No highlight is looked at: Q3, and
    only Q3, is current. *)
Theorem rank_fallback (rc : list gradeCell) :
  let sorted := sortByX rc in
  Permutation rc sorted
  /\ StronglySorted (fun a b => x a <= x b)%Q sorted
  /\ map letter (blockGrades [] rc)
     = map (fun i => option_map text (nth_error (lastFour sorted) i)) [0; 1; 2; 3]%nat
  /\ map isCurrent (blockGrades [] rc) = [false; false; true; false].
Proof.
  intro sorted. split; [apply sortByX_perm|]. split; [apply sortByX_sorted|].
  unfold blockGrades. rewrite quarterSteps_no_header.
  unfold rightmostFallback. fold sorted.
  generalize (lastFour sorted). intro four.
  split; [|reflexivity].
  destruct four as [|c0 [|c1 [|c2 [|c3 rest]]]]; reflexivity.
Qed.

(** ** The details of one course *)

Lemma gradeCell_not_empty (u : string) : Re.test Pat.gradeCell u = true -> u <> "".
Proof. intros H ->. vm_compute in H. discriminate. Qed.

(** With a grade already noted, only a highlighted cell changes it. *)
Lemma currentGradeLoop_noted target cs g :
  g <> "" ->
  currentGradeLoop target cs (Some g)
  = match find (fun rc => isTargetGrade target rc && cellHighlighted (snd rc)) cs with
    | Some rc => Some (Js.trim (textContent (snd rc)))
    | None => Some g
    end.
Proof.
  intro Hg. induction cs as [|rc cs IH]; simpl; [reflexivity|].
  destruct (isTargetGrade target rc); simpl; [|exact IH].
  destruct (cellHighlighted (snd rc)); [reflexivity|].
  destruct (String.eqb_spec g ""); [contradiction|]. simpl. exact IH.
Qed.

Lemma currentGradeLoop_choice (target : string) (cs : list (row * cell)) :
  currentGradeLoop target cs None
  = match find (fun rc => isTargetGrade target rc && cellHighlighted (snd rc)) cs with
    | Some rc => Some (Js.trim (textContent (snd rc)))
    | None =>
        match find (isTargetGrade target) cs with
        | Some rc => Some (Js.trim (textContent (snd rc)))
        | None => None
        end
    end.
Proof.
  induction cs as [|rc cs IH]; simpl; [reflexivity|].
  destruct (isTargetGrade target rc) eqn:E; simpl; [|exact IH].
  destruct (cellHighlighted (snd rc)); [reflexivity|].
  apply currentGradeLoop_noted.
  unfold isTargetGrade in E. apply andb_true_iff in E. destruct E as [E _].
  now apply gradeCell_not_empty.
Qed.

(** X11: the current grade of the details is the text of the first
    highlighted grade cell among the [td] cells whose row mentions the first
    eight characters of the target, or else the text of the first such grade
    cell, highlighted or not, or else null; when not null it is a grade.  The
    score, the assignments and the categories are never filled. *)
Theorem details_grade_choice (target : string) (p : page) :
  currentGrade (detailsInPage target p)
  = match find (fun rc => isTargetGrade target rc && cellHighlighted (snd rc))
               (allTdInRow p) with
    | Some rc => Some (Js.trim (textContent (snd rc)))
    | None =>
        match find (isTargetGrade target) (allTdInRow p) with
        | Some rc => Some (Js.trim (textContent (snd rc)))
        | None => None
        end
    end
  /\ (forall g, currentGrade (detailsInPage target p) = Some g -> isGrade g = true)
  /\ currentScore (detailsInPage target p) = None
  /\ assignments (detailsInPage target p) = []
  /\ categories (detailsInPage target p) = [].
Proof.
  assert (E : currentGrade (detailsInPage target p)
              = currentGradeLoop target (allTdInRow p) None).
  { unfold detailsInPage.
    destruct (firstTargetBlock target (tables p)) as [[[ti pe] te]|]; reflexivity. }
  split; [rewrite E; apply currentGradeLoop_choice|]. split.
  - intros g Hg. rewrite E, currentGradeLoop_choice in Hg.
    assert (G : forall rc, isTargetGrade target rc = true ->
                  isGrade (Js.trim (textContent (snd rc))) = true).
    { intros rc H. unfold isTargetGrade in H. apply andb_true_iff in H.
      apply test_gradeCell, H. }
    destruct (find (fun rc => isTargetGrade target rc && cellHighlighted (snd rc))
                (allTdInRow p)) as [rc|] eqn:F1.
    + apply find_some in F1. destruct F1 as [_ F1]. apply andb_true_iff in F1.
      inversion Hg; subst. apply G, F1.
    + destruct (find (isTargetGrade target) (allTdInRow p)) as [rc|] eqn:F2;
        [|discriminate].
      apply find_some in F2. inversion Hg; subst. apply G, F2.
  - unfold detailsInPage.
    destruct (firstTargetBlock target (tables p)) as [[[ti pe] te]|]; repeat split.
Qed.

Lemma includes_empty (s : string) : Js.includes s "" = true.
Proof. destruct s; reflexivity. Qed.

(** X12: an empty target name, or a table of three rows whose first row is
    blank, matches anything: when the first table of the page has three rows
    and either the target is empty or that first row is blank, the details
    take their name, period and teacher from that table, whatever the target
    is. *)
Theorem blank_names_match_anything (target : string) (p : page) (t : table)
    (ts : list table) (r0 r1 r2 : row) :
  tables p = t :: ts -> rows t = [r0; r1; r2] ->
  target = "" \/ Js.trim (rowText r0) = "" ->
  courseName (detailsInPage target p) = Js.trim (rowText r0)
  /\ detailsPeriod (detailsInPage target p) = Js.trim (rowText r1)
  /\ detailsTeacher (detailsInPage target p) = Js.trim (rowText r2).
Proof.
  intros Ht Hr H. unfold detailsInPage. rewrite Ht. simpl.
  unfold targetBlock. rewrite Hr.
  assert (E : Js.includes (Js.toLowerCase (Js.trim (rowText r0)))
                (substring 0 10 (Js.toLowerCase target))
              || Js.includes (Js.toLowerCase target)
                   (substring 0 10 (Js.toLowerCase (Js.trim (rowText r0)))) = true).
  { destruct H as [->| ->]; simpl.
    - now rewrite includes_empty.
    - rewrite includes_empty. apply orb_true_r. }
  rewrite E. repeat split.
Qed.

Lemma blank_names_match_anything_witness :
  courseName (detailsInPage "ALGEBRA II" Fixture.blankTitle) = "".
Proof.
  apply (blank_names_match_anything "ALGEBRA II" Fixture.blankTitle
           (Fixture.block "  " "Period 1" "SMITH JOHN" 100)
           [Fixture.block "ALGEBRA II" "Period 2" "JONES MARY" 200]
           (Fixture.tr [Fixture.td "  " 0 100 200])
           (Fixture.tr [Fixture.td "Period 1" 0 (100 + 15) 200])
           (Fixture.tr [Fixture.td "SMITH JOHN" 0 (100 + 30) 200])).
  - reflexivity.
  - reflexivity.
  - right. reflexivity.
Defined.

Lemma firstTargetBlock_none target ts :
  (forall t, In t ts -> length (rows t) <> 3%nat) -> firstTargetBlock target ts = None.
Proof.
  induction ts as [|t ts IH]; intro H; simpl; [reflexivity|].
  assert (E : targetBlock target t = None).
  { unfold targetBlock. pose proof (H t (or_introl eq_refl)) as Ht.
    destruct (rows t) as [|a [|b [|c [|d l]]]]; try reflexivity. now destruct Ht. }
  rewrite E. apply IH. intros t' Ht'. apply H. now right.
Qed.

Lemma currentGradeLoop_none target cs :
  (forall rc, In rc cs -> Re.test Pat.gradeCell (Js.trim (textContent (snd rc))) = false) ->
  currentGradeLoop target cs None = None.
Proof.
  induction cs as [|rc cs IH]; intro H; simpl; [reflexivity|].
  unfold isTargetGrade. rewrite (H rc (or_introl eq_refl)). simpl.
  apply IH. intros rc' Hrc. apply H. now right.
Qed.

Lemma allTdInRow_allTd p rc : In rc (allTdInRow p) -> In (snd rc) (allTd p).
Proof.
  unfold allTdInRow, allTd. rewrite !in_flat_map. intros (t & Ht & H).
  exists t. split; [exact Ht|]. rewrite in_flat_map in *. destruct H as (r & Hr & H).
  exists r. split; [exact Hr|]. apply in_map_iff in H. destruct H as (c & <- & Hc). exact Hc.
Qed.

(** X13: [scrapeCourseDetails] reports a success also when it finds nothing.
    When the browser starts, the login form is there, nothing throws and the
    name decodes, and the page, if it can be read at all, has no table of
    three rows and no grade cell, the result is [success: true] with the
    decoded name, empty teacher and period, no grade, no score, no assignment
    and no category; the browser is closed: the handle is null and the process
    that the call used, alive until then, is no longer alive. *)
Theorem details_success_without_course
    (decode : string -> string + string) (env : portal) (s : session)
    (courseName decoded : string) :
  launchError env = None -> loginError env = None -> loginFormFound env = true ->
  navigationError env = None -> decode courseName = inl decoded ->
  (forall p, documentAtExtraction env = Some p ->
     (forall t, In t (tables p) -> length (rows t) <> 3%nat)
     /\ (forall c, In c (allTd p) ->
           Re.test Pat.gradeCell (Js.trim (textContent c)) = false)) ->
  snd (scrapeCourseDetails decode env s courseName)
  = {| detailsSuccess := true; courseDetails := Some (noDetails decoded);
       detailsError := None |}
  /\ browser (fst (scrapeCourseDetails decode env s courseName)) = None
  /\ exists s1 b,
       ensureBrowser env s = (s1, inl b)
       /\ isAlive s1 b = true
       /\ isAlive (fst (scrapeCourseDetails decode env s courseName)) b = false.
Proof.
  intros Hl He Hf Hn Hd Hp. unfold scrapeCourseDetails.
  destruct (ensureBrowser env s) as [s1 [b|msg]] eqn:E.
  2:{ exfalso. unfold ensureBrowser, init, launch in E. rewrite Hl in E.
      destruct (browser s) as [b0|] eqn:Eb.
      - destruct (isAlive s b0); [rewrite Eb in E|]; simpl in E; discriminate.
      - simpl in E. discriminate. }
  destruct (ensureBrowser_live env s s1 b E) as [Hb Ha].
  rewrite He, Hf, Hn, Hd. simpl.
  split; [|split; [apply closeBrowser_none|]].
  - f_equal. f_equal.
    unfold extractCourseDetailsFromGradebook, evaluate.
    destruct (isAlive s1 b); [|reflexivity].
    destruct (documentAtExtraction env) as [p|]; [|reflexivity]. simpl.
    destruct (Hp p eq_refl) as [Ht Hc].
    unfold detailsInPage. rewrite (firstTargetBlock_none decoded (tables p) Ht).
    rewrite currentGradeLoop_none; [reflexivity|].
    intros rc Hrc. apply Hc. now apply allTdInRow_allTd.
  - exists s1, b. split; [reflexivity|]. split; [exact Ha|].
    exact (closeBrowser_dead s1 b Hb).
Qed.

Lemma details_success_without_course_witness :
  snd (scrapeCourseDetails (fun n => inl n) Fixture.menuShown newSession "ALGEBRA II")
  = {| detailsSuccess := true; courseDetails := Some (noDetails "ALGEBRA II");
       detailsError := None |}
  /\ isAlive (fst (scrapeCourseDetails (fun n => inl n) Fixture.menuShown newSession
                    "ALGEBRA II")) 0 = false.
Proof.
  destruct (details_success_without_course (fun n => inl n) Fixture.menuShown newSession
              "ALGEBRA II" "ALGEBRA II" eq_refl eq_refl eq_refl eq_refl eq_refl)
    as (H1 & _ & s1 & b & E & _ & H3).
  - intros p H. inversion H; subst. split.
    + intros t [<-|[]]. simpl. discriminate.
    + intros c [<-|[<-|[]]]; reflexivity.
  - split; [exact H1|]. inversion E; subst. exact H3.
Defined.
